(** * The measurement core of tests/manage/monitoring/conftest.py

    A shallow embedding of [measure_operation], of its nested watcher
    [prometheus_log] and of the three fixtures that call it
    ([measure_stop_ceph_mgr], [measure_stop_ceph_mon],
    [measure_stop_ceph_osd]), with the properties the specification
    states about them.

    Python values are an inductive type; the file system, the clock, the
    cluster and the log of effects form an explicit [world] that every
    statement of the source threads through a state-and-exception monad. *)

From stdpp Require Import gmap strings list pretty.
From Stdlib Require Import ZArith Lia Ascii String.

Open Scope Z_scope.
Set Warnings "-register-all".

(** ** Python values *)

(** The values the code handles: what [json.load] returns, what an
    operation returns, the alerts of the alerting API, the resource
    objects of the cluster client.  A dict keeps its items in insertion
    order, as Python's does.  [VObject] stands for any object that the
    json encoder has no encoding for.  Numbers are integers: a time stamp
    is a count of clock ticks (see [ticks_per_second]), and a number with
    a fraction has no value here. *)
Inductive value : Type :=
| VNone
| VBool (b : bool)
| VNum (z : Z)
| VStr (s : string)
| VList (items : list value)
| VDict (items : list (string * value))
| VObject (repr : string).

(** [True == 1] and [False == 0]: a bool is a number in Python. *)
Definition bool_num (b : bool) : Z := if b then 1 else 0.

(** Python's [==] on these values, the test behind
    [alert not in alert_list].  A bool equals the number it stands for;
    two lists are equal when they have the same length and equal items
    at each index; two dicts are equal when they have the same number of
    items and each item of the one has an item of the other with the
    same key and an equal value, in whatever order the items stand (a
    dict has each key once, so that item is the one under that key); an
    object equals itself. *)
Fixpoint value_eqb (a b : value) {struct a} : bool :=
  match a, b with
  | VNone, VNone => true
  | VBool x, VBool y => Bool.eqb x y
  | VBool x, VNum y => Z.eqb (bool_num x) y
  | VNum x, VBool y => Z.eqb x (bool_num y)
  | VNum x, VNum y => Z.eqb x y
  | VStr x, VStr y => String.eqb x y
  | VList xs, VList ys =>
      (fix go (xs ys : list value) {struct xs} : bool :=
         match xs, ys with
         | [], [] => true
         | x :: xs', y :: ys' => value_eqb x y && go xs' ys'
         | _, _ => false
         end) xs ys
  | VDict xs, VDict ys =>
      Nat.eqb (List.length xs) (List.length ys)
      && (fix each (xs : list (string * value)) {struct xs} : bool :=
            match xs with
            | [] => true
            | (k, x) :: xs' =>
                existsb (fun item => String.eqb k (fst item)
                                     && value_eqb x (snd item)) ys
                && each xs'
            end) xs
  | VObject x, VObject y => String.eqb x y
  | _, _ => false
  end.

(** Size of a value, the measure for the induction through the nested
    lists. *)
Fixpoint value_size (v : value) : nat :=
  match v with
  | VList xs => S (list_sum (map value_size xs))
  | VDict xs => S (list_sum (map (fun kv => value_size (snd kv)) xs))
  | _ => 1%nat
  end.

(** ** Exceptions and outcomes *)

Inductive exn : Type :=
| AssertionError (msg : string)
| JSONDecodeError
| TypeError
| PermissionError (path : string)
| IndexError
| KeyError (key : string)
| ValueError
| FileNotFoundError (path : string)
| CommandFailed (msg : string).

Inductive outcome (A : Type) : Type :=
| Ok (a : A)
| Raise (e : exn).
Arguments Ok {A} a.
Arguments Raise {A} e.

Definition is_ok {A} (o : outcome A) : bool :=
  match o with Ok _ => true | Raise _ => false end.

(** ** The world *)

(** A regular file: what [os.access] answers for it, whether [open(_, 'w')]
    is permitted, and its text. *)
Record file : Type := File {
  readable : bool;
  writable : bool;
  content : string
}.

(** A deployment of the cluster, as far as the fixtures look at it. *)
Record deployment : Type := Deployment {
  dep_name : string;
  dep_label : string;
  replicas : Z
}.

(** The imperative commands the fixtures give to [oc]. *)
Inductive oc_cmd : Type :=
| Scale (n : Z) (name : string).

(** The text the source builds for it:
    f"scale --replicas={n} deployment/{name}". *)
Definition cmd_text (c : oc_cmd) : string :=
  match c with
  | Scale n name => "scale --replicas=" +:+ pretty n +:+ " deployment/" +:+ name
  end.

(** Effects of the main thread, in the order they happen. *)
Inductive event : Type :=
| ThreadStarted
| ThreadJoined
| Slept (secs : Z)
| Exec (c : oc_cmd)
| OpenedForWriting (path : string)
| Wrote (path : string).

Record world : Type := World {
  fs : gmap string file;
  now : Z;
  cluster : list deployment;
  trace : list event;
  api_calls : nat
}.

Definition set_fs (f : gmap string file) (w : world) : world :=
  World f (now w) (cluster w) (trace w) (api_calls w).
Definition set_now (t : Z) (w : world) : world :=
  World (fs w) t (cluster w) (trace w) (api_calls w).
Definition set_cluster (c : list deployment) (w : world) : world :=
  World (fs w) (now w) c (trace w) (api_calls w).
Definition log (e : event) (w : world) : world :=
  World (fs w) (now w) (cluster w) (trace w ++ [e]) (api_calls w).
Definition add_api_calls (n : nat) (w : world) : world :=
  World (fs w) (now w) (cluster w) (trace w) (api_calls w + n)%nat.

(** ** The state-and-exception monad *)

Definition M (A : Type) : Type := world -> outcome A * world.

Definition ret {A} (a : A) : M A := fun w => (Ok a, w).
Definition raise {A} (e : exn) : M A := fun w => (Raise e, w).
Definition bind {A B} (m : M A) (k : A -> M B) : M B :=
  fun w =>
    match m w with
    | (Ok a, w') => k a w'
    | (Raise e, w') => (Raise e, w')
    end.
Definition lift {A} (o : outcome A) : M A := fun w => (o, w).
Definition update (f : world -> world) : M unit := fun w => (Ok tt, f w).
Definition reads {A} (f : world -> A) : M A := fun w => (Ok (f w), w).

Notation "'do' x <- m ;; k" := (bind m (fun x => k))
  (at level 10, x name, m at level 99, k at level 200).
Notation "'run' m ;; k" := (bind m (fun _ => k))
  (at level 10, m at level 99, k at level 200).

(** A loop over a list whose body may raise: [for x in xs: body]. *)
Fixpoint for_each {A} (body : A -> M unit) (xs : list A) : M unit :=
  match xs with
  | [] => ret tt
  | x :: xs' => run body x ;; for_each body xs'
  end.

(** ** Time *)

(** [time.time()] answers in seconds with a fraction; the model counts
    clock ticks and fixes how many make a second. *)
Definition ticks_per_second : Z := 1000000.
Definition seconds (n : Z) : Z := n * ticks_per_second.

(** One answer of the alerting API to [prometheus.get('alerts', ...)]:
    [alerts_response.ok], [alerts_response.request.url] and
    [alerts_response.json().get('data').get('alerts')]. *)
Record response (A : Type) : Type := Response {
  ok : bool;
  url : string;
  alerts : list A
}.
Arguments Response {A} ok url alerts.
Arguments ok {A} r.
Arguments url {A} r.
Arguments alerts {A} r.

(** What the surroundings decide during one run: how long the scheduler
    takes to start the watcher thread and to get from one clock reading
    to the next, by how much a sleep overshoots, how long the watcher
    thread takes from its start to its first test of [info.get('run')]
    (the construction of [PrometheusAPI()]), how long the k-th round of
    the watcher takes on top of its [time.sleep(3)] (the request and the
    handling of the answer), what the alerting API answers to the k-th
    call, and what the cluster operator does to the deployments during a
    wait of a given length.  The delays are natural numbers: on their
    own the steps of the run do not set the clock back, and
    [time.sleep] does not return early. *)
Record environment : Type := Environment {
  thread_start_delay : N;
  clock_read_delay : N;
  oversleep : N;
  watcher_delay : N;
  poll_delay : nat -> N;
  polls : nat -> response value;
  operator : Z -> list deployment -> list deployment
}.

Definition elapse (d : N) : M unit :=
  update (fun w => set_now (now w + Z.of_N d) w).

(** [time.time()] *)
Definition time_time : M Z := reads now.

(** [time.sleep(secs)], [secs] counted in ticks. *)
Definition time_sleep (env : environment) (secs : Z) : M unit :=
  if secs <? 0 then raise ValueError
  else
    update (fun w =>
      log (Slept secs)
        (set_cluster (operator env secs (cluster w))
           (set_now (now w + secs + Z.of_N (oversleep env)) w))).

(** ** The result file *)

(** The json module, an interface of the model: [json_load] is
    [json.load] on the text of a file, [None] when it raises
    JSONDecodeError; [json_dump] gives the text that [json.dump] writes
    to the stream and whether it completed, [false] when the encoder
    raised TypeError after writing that text. *)
Class Json : Type := {
  json_load : string -> option value;
  json_dump : value -> string * bool
}.

(** [os.path.isfile(path)] *)
Definition os_path_isfile (path : string) : M bool :=
  reads (fun w => bool_decide (is_Some (fs w !! path))).

(** [os.access(path, os.R_OK)] *)
Definition os_access_R_OK (path : string) : M bool :=
  reads (fun w =>
    match fs w !! path with
    | Some f => readable f
    | None => false
    end).

(** [open(path, 'w')]: an existing file is truncated when writing it is
    permitted, a missing one is created. *)
Definition open_w (path : string) : M unit :=
  fun w =>
    match fs w !! path with
    | Some f =>
        if writable f then
          (Ok tt, log (OpenedForWriting path)
                    (set_fs (<[path := File (readable f) true ""]> (fs w)) w))
        else (Raise (PermissionError path), w)
    | None =>
        (Ok tt, log (OpenedForWriting path)
                  (set_fs (<[path := File true true ""]> (fs w)) w))
    end.

(** [outfile.write(text)] on the file opened at [path]. *)
Definition file_write (path text : string) : M unit :=
  update (fun w =>
    log (Wrote path)
      (set_fs (alter (fun f => File (readable f) (writable f)
                                 (content f +:+ text)) path (fs w)) w)).

(** ** The watcher thread *)

(** How a thread ended: its target returned, or an exception left it. *)
Inductive thread_exit : Type :=
| Returned
| Died (e : exn).

Section Watcher.
Context {A : Type} (eqb : A -> A -> bool).

(** [alert in alert_list] *)
Definition contains (alert_list : list A) (alert : A) : bool :=
  existsb (fun seen => eqb seen alert) alert_list.

(** The inner loop of [prometheus_log]:
      for alert in alerts: if alert not in alert_list:
        alert_list.append(alert) *)
Fixpoint append_new (alerts alert_list : list A) : list A :=
  match alerts with
  | [] => alert_list
  | alert :: rest =>
      append_new rest
        (if contains alert_list alert then alert_list
         else alert_list ++ [alert])
  end.

(** [prometheus_log(info, alert_list)], run on the answers to the polls
    it makes while [info.get('run')] holds.  Gives how the thread
    ended, the shared [alert_list] as the thread left it, and the
    number of calls it made to the alerting API.  The assertion on
    [alerts_response.ok] ends the thread at the first answer that is
    not a success. *)
Fixpoint prometheus_log (answers : list (response A)) (alert_list : list A)
    (calls : nat) : thread_exit * list A * nat :=
  match answers with
  | [] => (Returned, alert_list, calls)
  | alerts_response :: later =>
      if ok alerts_response then
        prometheus_log later
          (append_new (alerts alerts_response) alert_list) (S calls)
      else
        (Died (AssertionError
                 ("Request " +:+ url alerts_response +:+ " failed")),
         alert_list, S calls)
  end.
End Watcher.

(** The dict that [measure_operation] builds:
    {'start': .., 'stop': .., 'result': .., 'metadata': ..,
     'prometheus_alerts': ..} *)
Definition measurement_record (start_time stop_time : Z) (result metadata : value)
    (alert_list : list value) : value :=
  VDict [("start", VNum start_time);
         ("stop", VNum stop_time);
         ("result", result);
         ("metadata", metadata);
         ("prometheus_alerts", VList alert_list)].

(** [v[key]] on a dict, [None] when the key is missing or [v] is no dict. *)
Definition field (key : string) (v : value) : option value :=
  match v with
  | VDict items =>
      match filter (fun kv => fst kv = key) items with
      | (_, x) :: _ => Some x
      | [] => None
      end
  | _ => None
  end.

(** ** The rounds of the watcher *)

(** [time.sleep(3)], the pause at the end of each round. *)
Definition poll_pause : Z := seconds 3.

(** The clock reading at which the watcher, started at [t0], tests
    [info.get('run')] for the k-th time, [k] counted from 0: each round
    lasts the time of its request and the pause. *)
Fixpoint test_time (env : environment) (t0 : Z) (k : nat) : Z :=
  match k with
  | O => t0 + Z.of_N (watcher_delay env)
  | S k' => test_time env t0 k' + Z.of_N (poll_delay env k') + poll_pause
  end.

(** [while info.get('run')]: the rounds from the k-th on that begin
    before [info['run']] is set to false at [deadline]. *)
Fixpoint rounds_from (env : environment) (t0 deadline : Z) (fuel k : nat)
    : nat :=
  match fuel with
  | O => O
  | S fuel' =>
      if test_time env t0 k <? deadline then
        S (rounds_from env t0 deadline fuel' (S k))
      else O
  end.

(** The number of rounds of a watcher started at [t0] and told to stop
    at [deadline].  A round lasts three seconds at least, so there are
    no more rounds than the bound given to [rounds_from]
    (see [rounds_spec]). *)
Definition rounds (env : environment) (t0 deadline : Z) : nat :=
  rounds_from env t0 deadline (Z.to_nat ((deadline - t0) / poll_pause + 1)) 0.

(** The answers of the alerting API to the calls of these rounds. *)
Definition received (env : environment) (t0 deadline : Z)
    : list (response value) :=
  map (polls env) (seq 0 (rounds env t0 deadline)).

(** When the thread has ended: at the test that found [info['run']]
    false when it returned, at the answer to its last call when the
    assertion ended it. *)
Definition thread_end (env : environment) (t0 : Z) (exit : thread_exit)
    (calls : nat) : Z :=
  match exit with
  | Returned => test_time env t0 calls
  | Died _ => test_time env t0 (calls - 1)
              + Z.of_N (poll_delay env (calls - 1))
  end.

Section Measurement.
Context `{Json}.

(** [with open(path) as open_file: json.load(open_file)] *)
Definition load_file (path : string) : M value :=
  fun w =>
    match fs w !! path with
    | Some f =>
        if readable f then
          match json_load (content f) with
          | Some v => (Ok v, w)
          | None => (Raise JSONDecodeError, w)
          end
        else (Raise (PermissionError path), w)
    | None => (Raise (FileNotFoundError path), w)
    end.

(** [json.dump(results, outfile)]: the text written so far stays in the
    file when the encoder raises. *)
Definition dump_file (results : value) (path : string) : M unit :=
  let '(text, complete) := json_dump results in
  run file_write path text ;;
  if complete then ret tt else raise TypeError.

(** [logging_thread = threading.Thread(...); logging_thread.start()]:
    the thread is known by the clock reading at which it was started. *)
Definition thread_start (env : environment) : M Z :=
  do started_at <- time_time ;;
  run update (log ThreadStarted) ;;
  run elapse (thread_start_delay env) ;;
  ret started_at.

(** [info['run'] = False; logging_thread.join()].  The watcher has run
    [prometheus_log] on the answers to the calls of the rounds it began
    before [info['run']] became false; [join] waits until the thread
    has ended and returns normally however it ended: an exception
    raised in the watcher is not raised again in the thread that joins
    it.  The shared [alert_list] holds what the watcher appended. *)
Definition thread_join (env : environment) (logging_thread : Z)
    : M (list value) :=
  do deadline <- time_time ;;
  let '(exit, alert_list, calls) :=
    prometheus_log value_eqb (received env logging_thread deadline) [] 0 in
  let ended := thread_end env logging_thread exit calls in
  run update (fun w =>
        add_api_calls calls
          (log ThreadJoined (set_now (Z.max (now w) ended) w))) ;;
  ret alert_list.

(** [measure_operation(operation, result_file, minimal_time, metadata,
    measure_after)].  [minimal_time] is in seconds, [None] when it is
    not given. *)
Definition measure_operation (env : environment) (operation : M value)
    (result_file : string) (minimal_time : option Z) (metadata : value)
    (measure_after : bool) : M value :=
  do isfile <- os_path_isfile result_file ;;
  do access <- os_access_R_OK result_file ;;
  if isfile && access then
    do results <- load_file result_file ;;
    ret results
  else
    (* [start_time] is not bound yet when [measure_after] holds *)
    do start_time <- (if negb measure_after then time_time else ret 0) ;;
    do logging_thread <- thread_start env ;;
    do result <- operation ;;
    do start_time <- (if measure_after then time_time else ret start_time) ;;
    run elapse (clock_read_delay env) ;;
    do t <- time_time ;;
    let passed_time := t - start_time in
    run match minimal_time with
        | Some minimal =>
            if minimal =? 0 then ret tt
            else
              let additional_time := seconds minimal - passed_time in
              if 0 <? additional_time then time_sleep env additional_time
              else ret tt
        | None => ret tt
        end ;;
    run elapse (clock_read_delay env) ;;
    do stop_time <- time_time ;;
    do alert_list <- thread_join env logging_thread ;;
    let results :=
      measurement_record start_time stop_time result metadata alert_list in
    run open_w result_file ;;
    run dump_file results result_file ;;
    ret results.

End Measurement.

(** ** The cluster client *)

(** From ocs_ci/ocs/constants.py *)
Definition DEPLOYMENT : string := "Deployment".
Definition MON_APP_LABEL : string := "app=rook-ceph-mon".
Definition MGR_APP_LABEL : string := "app=rook-ceph-mgr".
Definition OSD_APP_LABEL : string := "app=rook-ceph-osd".

(** Modelled from the spec: the class [ocp.OCP] (ocs_ci/ocs/ocp.py) is
    not among the sources.  The spec gives the client as
    [list(kind, namespace, selector) -> sequence of resource objects
    (each with metadata.name)], [get(name) -> resource object] and
    [exec(command string) -> result], the command being
    [scale --replicas=N deployment/<name>].  The client is bound to one
    kind and one namespace, whose deployments are [cluster]. *)
Definition resource_of (d : deployment) : value :=
  VDict [("kind", VStr DEPLOYMENT);
         ("metadata", VDict [("name", VStr (dep_name d))]);
         ("spec", VDict [("replicas", VNum (replicas d))])].

(** Modelled from the spec: [oc.get(selector=...)['items']], the
    deployments carrying the label, in the order of the listing. *)
Definition oc_get_selector (selector : string) : M (list deployment) :=
  reads (fun w => filter (fun d => dep_label d = selector) (cluster w)).

(** Modelled from the spec: [oc.get(name)], the resource object of the
    deployment of that name. *)
Definition oc_get (name : string) : M value :=
  fun w =>
    match filter (fun d => dep_name d = name) (cluster w) with
    | d :: _ => (Ok (resource_of d), w)
    | [] => (Raise (CommandFailed name), w)
    end.

Definition scale (n : Z) (name : string) (d : deployment) : deployment :=
  if decide (dep_name d = name) then Deployment (dep_name d) (dep_label d) n
  else d.

(** Modelled from the spec: [oc.exec_oc_cmd(command)]; the spec names no
    failure of it. *)
Definition exec_oc_cmd (c : oc_cmd) : M unit :=
  update (fun w =>
    match c with
    | Scale n name => log (Exec c) (set_cluster (map (scale n name) (cluster w)) w)
    end).

(** ** Small pieces of Python *)

Fixpoint ends_with_slash (s : string) : bool :=
  match s with
  | EmptyString => false
  | String c EmptyString => bool_decide (c = "/"%char)
  | String _ rest => ends_with_slash rest
  end.

(** [os.path.join(a, b)] for a relative [b]. *)
Definition os_path_join (a b : string) : string :=
  match a with
  | EmptyString => b
  | _ => if ends_with_slash a then a +:+ b else a +:+ "/" +:+ b
  end.

(** [xs[0]] *)
Definition first_item {A} (xs : list A) : outcome A :=
  match xs with
  | x :: _ => Ok x
  | [] => Raise IndexError
  end.

(** [xs[-1]] *)
Definition last_item {A} (xs : list A) : outcome A :=
  match last xs with
  | Some x => Ok x
  | None => Raise IndexError
  end.

(** [name in names] on strings *)
Definition name_in (name : string) (names : list string) : bool :=
  existsb (String.eqb name) names.

(** The text Python prints for a list of strings in an f-string. *)
Fixpoint repr_items (names : list string) : string :=
  match names with
  | [] => ""
  | [name] => "'" +:+ name +:+ "'"
  | name :: rest => "'" +:+ name +:+ "', " +:+ repr_items rest
  end.
Definition repr_list (names : list string) : string :=
  "[" +:+ repr_items names +:+ "]".

(** ** The fixtures *)

Section Fixtures.
Context `{Json}.

(** [stop_mgr()], the closure of [measure_stop_ceph_mgr] over [oc] and
    [mgr]. *)
Definition stop_mgr (env : environment) (mgr : string) : M value :=
  let run_time := 60 * 6 in
  run exec_oc_cmd (Scale 0 mgr) ;;
  run time_sleep env (seconds run_time) ;;
  oc_get mgr.

(** [measure_stop_ceph_mgr(measurement_dir)] *)
Definition measure_stop_ceph_mgr (env : environment)
    (measurement_dir : string) : M value :=
  do mgr_deployments <- oc_get_selector MGR_APP_LABEL ;;
  do first <- lift (first_item mgr_deployments) ;;
  let mgr := dep_name first in
  let stop_mgr := stop_mgr env mgr in
  let test_file := os_path_join measurement_dir "measure_stop_ceph_mgr.json" in
  do measured_op <- measure_operation env stop_mgr test_file None VNone false ;;
  run exec_oc_cmd (Scale 1 mgr) ;;
  ret measured_op.

(** [split_index = len(mons) // 2 if len(mons) > 3 else 2] *)
Definition split_index (mons : list string) : nat :=
  if (3 <? List.length mons)%nat then (List.length mons / 2)%nat else 2%nat.

(** [stop_mon()], the closure of [measure_stop_ceph_mon] over [oc] and
    [mons_to_stop]. *)
Definition stop_mon (env : environment) (mons_to_stop : list string)
    : M value :=
  let run_time := 60 * 12 in
  run for_each (fun mon => exec_oc_cmd (Scale 0 mon)) mons_to_stop ;;
  run time_sleep env (seconds run_time) ;;
  ret (VList (map VStr mons_to_stop)).

(** [measure_stop_ceph_mon(measurement_dir)] *)
Definition measure_stop_ceph_mon (env : environment)
    (measurement_dir : string) : M value :=
  do mon_deployments <- oc_get_selector MON_APP_LABEL ;;
  let mons := map dep_name mon_deployments in
  let mons_to_stop := drop (split_index mons) mons in
  let stop_mon := stop_mon env mons_to_stop in
  let test_file := os_path_join measurement_dir "measure_stop_ceph_mon.json" in
  do measured_op <- measure_operation env stop_mon test_file None VNone false ;;
  do mon_deployments <- oc_get_selector MON_APP_LABEL ;;
  let mons := map dep_name mon_deployments in
  let check_old_mons_deleted :=
    forallb (fun mon => negb (name_in mon mons)) mons_to_stop in
  if negb check_old_mons_deleted then
    run for_each (fun mon => exec_oc_cmd (Scale 1 mon)) mons_to_stop ;;
    raise (AssertionError
             ("Downscaled monitors " +:+ repr_list mons_to_stop
              +:+ " were not replaced"))
  else ret measured_op.

(** [stop_osd()], the closure of [measure_stop_ceph_osd] over [oc] and
    [osd_to_stop]. *)
Definition stop_osd (env : environment) (osd_to_stop : string) : M value :=
  let run_time := 60 * 11 in
  run exec_oc_cmd (Scale 0 osd_to_stop) ;;
  run time_sleep env (seconds run_time) ;;
  ret (VStr osd_to_stop).

(** [measure_stop_ceph_osd(measurement_dir)] *)
Definition measure_stop_ceph_osd (env : environment)
    (measurement_dir : string) : M value :=
  do osd_deployments <- oc_get_selector OSD_APP_LABEL ;;
  let osds := map dep_name osd_deployments in
  do osd_to_stop <- lift (last_item osds) ;;
  let stop_osd := stop_osd env osd_to_stop in
  let test_file := os_path_join measurement_dir "measure_stop_ceph_osd.json" in
  do measured_op <- measure_operation env stop_osd test_file None VNone false ;;
  run exec_oc_cmd (Scale 1 osd_to_stop) ;;
  ret measured_op.

End Fixtures.

(** ** A json codec to run the model on concrete files *)

(** An instance of [Json] for a fragment of JSON: null, true, false,
    integers, strings without escapes, arrays and objects.  The encoder
    writes what [json.dump] writes with its default separators, up to the
    first value it cannot encode; the decoder answers [None] outside the
    fragment.  The general statements below hold for every instance; this
    one serves the examples. *)
Module Codec.

Definition dquote : ascii := "034"%char.
Definition quoted (s : string) : string :=
  String dquote (s +:+ String dquote EmptyString).

Fixpoint encode (v : value) : string * bool :=
  match v with
  | VNone => ("null", true)
  | VBool true => ("true", true)
  | VBool false => ("false", true)
  | VNum z => (pretty z, true)
  | VStr s => (quoted s, true)
  | VList xs =>
      let '(text, complete) :=
        (fix items (xs : list value) (first : bool) : string * bool :=
           match xs with
           | [] => ("]", true)
           | x :: rest =>
               let buf := if first then "" else ", " in
               let '(tx, okx) := encode x in
               if okx then
                 let '(tr, okr) := items rest false in
                 (buf +:+ tx +:+ tr, okr)
               else (buf +:+ tx, false)
           end) xs true in
      ("[" +:+ text, complete)
  | VDict kvs =>
      let '(text, complete) :=
        (fix members (kvs : list (string * value)) (first : bool)
           : string * bool :=
           match kvs with
           | [] => ("}", true)
           | (k, x) :: rest =>
               let buf := (if first then "" else ", ") +:+ quoted k +:+ ": " in
               let '(tx, okx) := encode x in
               if okx then
                 let '(tr, okr) := members rest false in
                 (buf +:+ tx +:+ tr, okr)
               else (buf +:+ tx, false)
           end) kvs true in
      ("{" +:+ text, complete)
  | VObject _ => ("", false)
  end.

Definition is_space (c : ascii) : bool :=
  Ascii.eqb c " " || Ascii.eqb c "010" || Ascii.eqb c "013"
  || Ascii.eqb c "009".

Fixpoint skip_spaces (s : string) : string :=
  match s with
  | String c rest => if is_space c then skip_spaces rest else s
  | EmptyString => s
  end.

(** [after p s] is what follows the prefix [p] in [s]. *)
Fixpoint after (p s : string) : option string :=
  match p, s with
  | EmptyString, _ => Some s
  | String a p', String b s' => if Ascii.eqb a b then after p' s' else None
  | _, _ => None
  end.

Definition digit_of (c : ascii) : option Z :=
  let n := Z.of_nat (nat_of_ascii c) in
  if (48 <=? n) && (n <=? 57) then Some (n - 48) else None.

(** The digits at the head of [s], read after [acc]. *)
Fixpoint digits (s : string) (acc : Z) : Z * string :=
  match s with
  | String c rest =>
      match digit_of c with
      | Some d => digits rest (10 * acc + d)
      | None => (acc, s)
      end
  | EmptyString => (acc, s)
  end.

Definition number (s : string) : option (Z * string) :=
  match s with
  | String c _ =>
      match digit_of c with
      | Some _ => Some (digits s 0)
      | None => None
      end
  | EmptyString => None
  end.

(** The characters up to the closing quote. *)
Fixpoint chars (s : string) : option (string * string) :=
  match s with
  | EmptyString => None
  | String c rest =>
      if Ascii.eqb c dquote then Some (EmptyString, rest)
      else if Ascii.eqb c "092" then None
      else
        match chars rest with
        | Some (str, rest') => Some (String c str, rest')
        | None => None
        end
  end.

Fixpoint parse_value (fuel : nat) (s : string) : option (value * string) :=
  match fuel with
  | O => None
  | S fuel' =>
      match skip_spaces s with
      | EmptyString => None
      | String c rest as s' =>
          if Ascii.eqb c "[" then
            match after "]" (skip_spaces rest) with
            | Some rest' => Some (VList [], rest')
            | None =>
                match parse_items fuel' rest with
                | Some (xs, rest') => Some (VList xs, rest')
                | None => None
                end
            end
          else if Ascii.eqb c "{" then
            match after "}" (skip_spaces rest) with
            | Some rest' => Some (VDict [], rest')
            | None =>
                match parse_members fuel' rest with
                | Some (kvs, rest') => Some (VDict kvs, rest')
                | None => None
                end
            end
          else if Ascii.eqb c dquote then
            match chars rest with
            | Some (str, rest') => Some (VStr str, rest')
            | None => None
            end
          else if Ascii.eqb c "-" then
            match number rest with
            | Some (n, rest') => Some (VNum (- n), rest')
            | None => None
            end
          else
            match after "null" s', after "true" s', after "false" s' with
            | Some rest', _, _ => Some (VNone, rest')
            | _, Some rest', _ => Some (VBool true, rest')
            | _, _, Some rest' => Some (VBool false, rest')
            | _, _, _ =>
                match number s' with
                | Some (n, rest') => Some (VNum n, rest')
                | None => None
                end
            end
      end
  end
with parse_items (fuel : nat) (s : string) : option (list value * string) :=
  match fuel with
  | O => None
  | S fuel' =>
      match parse_value fuel' s with
      | Some (x, rest) =>
          match skip_spaces rest with
          | String c rest' =>
              if Ascii.eqb c "," then
                match parse_items fuel' rest' with
                | Some (xs, rest'') => Some (x :: xs, rest'')
                | None => None
                end
              else if Ascii.eqb c "]" then Some ([x], rest')
              else None
          | EmptyString => None
          end
      | None => None
      end
  end
with parse_members (fuel : nat) (s : string)
    : option (list (string * value) * string) :=
  match fuel with
  | O => None
  | S fuel' =>
      match after (String dquote EmptyString) (skip_spaces s) with
      | Some rest =>
          match chars rest with
          | Some (k, rest1) =>
              match after ":" (skip_spaces rest1) with
              | Some rest2 =>
                  match parse_value fuel' rest2 with
                  | Some (x, rest3) =>
                      match skip_spaces rest3 with
                      | String c rest4 =>
                          if Ascii.eqb c "," then
                            match parse_members fuel' rest4 with
                            | Some (kvs, rest5) => Some ((k, x) :: kvs, rest5)
                            | None => None
                            end
                          else if Ascii.eqb c "}" then Some ([(k, x)], rest4)
                          else None
                      | EmptyString => None
                      end
                  | None => None
                  end
              | None => None
              end
          | None => None
          end
      | None => None
      end
  end.

Definition decode (s : string) : option value :=
  match parse_value (2 * String.length s + 2) s with
  | Some (v, rest) =>
      match skip_spaces rest with
      | EmptyString => Some v
      | _ => None
      end
  | None => None
  end.

Definition json : Json := {| json_load := decode; json_dump := encode |}.

End Codec.

(** ** Notions used in the statements *)

Section FirstSeen.
Context {A : Type} (eqb : A -> A -> bool).

(** Whether one of [earlier] equals [a]. *)
Definition seen_before (earlier : list A) (a : A) : bool :=
  negb (forallb (fun b => negb (eqb b a)) earlier).

(** The elements of a stream that stand at the position of their first
    occurrence, in the order of the stream: the element at position [i]
    is kept when none of the [i] elements before it equals it. *)
Definition first_occurrences (stream : list A) : list A :=
  omap (fun i =>
          match stream !! i with
          | Some a => if seen_before (take i stream) a then None else Some a
          | None => None
          end)
       (seq 0 (List.length stream)).

(** The stream of alerts that the watcher reads: those of the answers
    up to the first one that is not a success. *)
Fixpoint polled (answers : list (response A)) : list A :=
  match answers with
  | [] => []
  | alerts_response :: later =>
      if ok alerts_response then alerts alerts_response ++ polled later
      else []
  end.
End FirstSeen.

(** The test of [measure_operation] for using the result file:
    [os.path.isfile(result_file) and os.access(result_file, os.R_OK)]. *)
Definition cached (w : world) (result_file : string) : bool :=
  match fs w !! result_file with
  | Some f => readable f
  | None => false
  end.

(** What [json.load] makes of a text. *)
Definition loaded `{Json} (text : string) : outcome value :=
  match json_load text with
  | Some v => Ok v
  | None => Raise JSONDecodeError
  end.

(** The world in which the operation is invoked: the watcher thread has
    been started. *)
Definition started (env : environment) (w : world) : world :=
  set_now (now w + Z.of_N (thread_start_delay env)) (log ThreadStarted w).

(** The world after the minimal-time extension, [passed_time] having
    passed when it is decided. *)
Definition extended (env : environment) (minimal_time : option Z)
    (passed_time : Z) (w : world) : world :=
  match minimal_time with
  | Some minimal =>
      if minimal =? 0 then w
      else if 0 <? seconds minimal - passed_time then
        log (Slept (seconds minimal - passed_time))
          (set_cluster (operator env (seconds minimal - passed_time) (cluster w))
             (set_now (now w + (seconds minimal - passed_time)
                       + Z.of_N (oversleep env)) w))
      else w
  | None => w
  end.

(** How long the minimal-time extension makes the clock advance. *)
Definition extension (env : environment) (minimal_time : option Z)
    (passed_time : Z) : Z :=
  match minimal_time with
  | Some minimal =>
      if minimal =? 0 then 0
      else if 0 <? seconds minimal - passed_time then
        seconds minimal - passed_time + Z.of_N (oversleep env)
      else 0
  | None => 0
  end.

(** Whether [open(path, 'w')] is permitted. *)
Definition permitted (w : world) (path : string) : bool :=
  match fs w !! path with
  | Some f => writable f
  | None => true
  end.

(** The world after [open(path, 'w')] and the writing of [text]. *)
Definition saved (path text : string) (w : world) : world :=
  let r := match fs w !! path with Some f => readable f | None => true end in
  log (Wrote path)
    (log (OpenedForWriting path)
       (set_fs (<[path := File r true text]> (fs w)) w)).

(** The alerts that a watcher started at [t0] has gathered when it is
    told to stop at [deadline] and joined. *)
Definition gathered (env : environment) (t0 deadline : Z) : list value :=
  snd (fst (prometheus_log value_eqb (received env t0 deadline) [] 0)).

(** How that watcher ended. *)
Definition watcher_exit (env : environment) (t0 deadline : Z) : thread_exit :=
  fst (fst (prometheus_log value_eqb (received env t0 deadline) [] 0)).

(** The number of calls that watcher made to the alerting API. *)
Definition polls_made (env : environment) (t0 deadline : Z) : nat :=
  snd (prometheus_log value_eqb (received env t0 deadline) [] 0).

(** The world once a watcher started at [t0] has been told to stop and
    joined. *)
Definition joined (env : environment) (t0 : Z) (w : world) : world :=
  add_api_calls (polls_made env t0 (now w))
    (log ThreadJoined
       (set_now (Z.max (now w)
                   (thread_end env t0 (watcher_exit env t0 (now w))
                      (polls_made env t0 (now w)))) w)).

(** The world after [oc.exec_oc_cmd] of a command. *)
Definition executed (c : oc_cmd) (w : world) : world :=
  match c with
  | Scale n name => log (Exec c) (set_cluster (map (scale n name) (cluster w)) w)
  end.

(** The world after scaling each of [names] to [n], one after the other. *)
Definition scaled_each (n : Z) (names : list string) (w : world) : world :=
  fold_left (fun w name => executed (Scale n name) w) names w.

(** The world after [time.sleep(secs)] for a [secs] that is not negative. *)
Definition slept (env : environment) (secs : Z) (w : world) : world :=
  log (Slept secs)
    (set_cluster (operator env secs (cluster w))
       (set_now (now w + secs + Z.of_N (oversleep env)) w)).

(** The names of the deployments that carry a label, as listed. *)
Definition listed (label : string) (w : world) : list string :=
  map dep_name (filter (fun d => dep_label d = label) (cluster w)).

(** The result file format of the spec: a JSON object with the keys
    [start] and [stop] (numbers), [result] (any value), [metadata]
    (object or null) and the alerts (an array of alert objects). *)
Definition valid_record (v : value) : bool :=
  match field "start" v, field "stop" v, field "result" v,
        field "metadata" v, field "prometheus_alerts" v with
  | Some (VNum _), Some (VNum _), Some _, Some metadata, Some (VList alerts) =>
      match metadata with VNone | VDict _ => true | _ => false end
      && forallb (fun a => match a with VDict _ => true | _ => false end) alerts
  | _, _, _, _, _ => false
  end.

(** The commands given to [oc], in order. *)
Definition commands (tr : list event) : list oc_cmd :=
  omap (fun e => match e with Exec c => Some c | _ => None end) tr.

(** ** Sample data *)

(** Concrete surroundings, clusters and files on which the statements
    below are run. *)
Module Sample.

Definition alerts_url : string :=
  "https://prometheus-k8s/api/v1/alerts?silenced=False&inhibited=False".

Definition mgr_pending : value :=
  VDict [("labels", VDict [("alertname", VStr "CephMgrIsAbsent")]);
         ("state", VStr "pending")].

Definition mgr_firing : value :=
  VDict [("labels", VDict [("alertname", VStr "CephMgrIsAbsent")]);
         ("state", VStr "firing")].

(** The cluster operator leaves the deployments alone. *)
Definition idle (secs : Z) (c : list deployment) : list deployment := c.

(** The cluster operator replaces every deployment that has no replica
    by a new one under a new name. *)
Definition healing (secs : Z) (c : list deployment) : list deployment :=
  map (fun d =>
         if replicas d =? 0 then
           Deployment (dep_name d +:+ "-new") (dep_label d) 1
         else d) c.

(** An alerting API that answers its first calls as [described] and
    every later call with [later]. *)
Definition answering (described : list (response value))
    (later : response value) : nat -> response value :=
  fun k => nth k described later.

(** The watcher is ready 40 ms after its start and a request takes
    150 ms. *)
Definition ready : N := 40000.
Definition request (k : nat) : N := 150000.

(** The alerting API has no alert. *)
Definition quiet : environment :=
  Environment 2 1 3 ready request
    (answering [] (Response true alerts_url [])) idle.

(** The alerting API answers twice, then fails, and answers again after
    that. *)
Definition failing_answers : list (response value) :=
  [Response true alerts_url [mgr_pending];
   Response true alerts_url [mgr_pending; mgr_firing];
   Response false alerts_url [];
   Response true alerts_url [mgr_firing]].
Definition failing_api : environment :=
  Environment 2 1 3 ready request
    (answering failing_answers (Response true alerts_url [mgr_firing])) idle.

Definition self_healing : environment :=
  Environment 2 1 3 ready request
    (answering [] (Response true alerts_url [mgr_pending])) healing.

Definition mgr_cluster : list deployment :=
  [Deployment "rook-ceph-mgr-a" MGR_APP_LABEL 1;
   Deployment "rook-ceph-osd-0" OSD_APP_LABEL 1].

Definition mon_cluster : list deployment :=
  [Deployment "rook-ceph-mon-a" MON_APP_LABEL 1;
   Deployment "rook-ceph-mon-b" MON_APP_LABEL 1;
   Deployment "rook-ceph-mgr-a" MGR_APP_LABEL 1;
   Deployment "rook-ceph-mon-c" MON_APP_LABEL 1;
   Deployment "rook-ceph-mon-d" MON_APP_LABEL 1].

Definition dir : string := "/tmp/measurement_results".
Definition mgr_file : string :=
  "/tmp/measurement_results/measure_stop_ceph_mgr.json".
Definition mon_file : string :=
  "/tmp/measurement_results/measure_stop_ceph_mon.json".

(** A record as a former run has saved it. *)
Definition old_record : value :=
  measurement_record 10 20 (VStr "rook-ceph-osd-2") VNone [mgr_pending].
Definition old_text : string := fst (Codec.encode old_record).

Definition fresh (c : list deployment) : world := World ∅ 100 c [] 0.

Definition with_file (path : string) (f : file) (c : list deployment)
    : world :=
  World {[ path := f ]} 100 c [] 0.

(** An operation that takes five ticks and returns a string. *)
Definition quick : M value :=
  run elapse 5 ;; ret (VStr "done").

(** An operation that takes seven seconds and returns a string. *)
Definition slow : M value :=
  run elapse 7000000 ;; ret (VStr "done").


(** An operation that returns an object json cannot encode. *)
Definition opaque : M value :=
  run elapse 5 ;; ret (VObject "<Deployment object>").

End Sample.

(** ** Paths and the measurement directory *)

(** [p[:p.rfind('/') + 1]]: the longest prefix of [p] that ends in a
    slash. *)
Fixpoint head_of (p : string) : string :=
  match p with
  | EmptyString => EmptyString
  | String c rest =>
      match head_of rest with
      | EmptyString =>
          if Ascii.eqb c "/" then String c EmptyString else EmptyString
      | String _ _ as h => String c h
      end
  end.

(** [s == '/' * len(s)] *)
Fixpoint all_slashes (s : string) : bool :=
  match s with
  | EmptyString => true
  | String c rest => Ascii.eqb c "/" && all_slashes rest
  end.

(** [s.rstrip('/')] *)
Fixpoint rstrip_slashes (s : string) : string :=
  match s with
  | EmptyString => EmptyString
  | String c rest =>
      match rstrip_slashes rest with
      | EmptyString =>
          if Ascii.eqb c "/" then EmptyString else String c EmptyString
      | String _ _ as r => String c r
      end
  end.

(** [os.path.dirname(p)] of posixpath:
      i = p.rfind('/') + 1; head = p[:i]
      if head and head != '/' * len(head): head = head.rstrip('/') *)
Definition os_path_dirname (p : string) : string :=
  let head := head_of p in
  match head with
  | EmptyString => head
  | String _ _ => if all_slashes head then head else rstrip_slashes head
  end.

(** [os.path.join(a, *ps)] for relative [ps]. *)
Definition os_path_join_all (a : string) (ps : list string) : string :=
  fold_left os_path_join ps a.

(** Whether a name has no slash in it. *)
Fixpoint no_slash (s : string) : bool :=
  match s with
  | EmptyString => true
  | String c rest => negb (Ascii.eqb c "/") && no_slash rest
  end.

(** From ocs_ci/ocs/constants.py, as functions of
    [os.path.abspath(__file__)] and of [TOP_DIR]. *)
Definition TOP_DIR (file : string) : string :=
  os_path_dirname (os_path_dirname (os_path_dirname file)).
Definition TEMPLATE_DIR (top : string) : string :=
  os_path_join_all top ["ocs_ci"; "templates"].
Definition TEMPLATE_OPENSHIFT_INFRA_DIR (top : string) : string :=
  os_path_join (TEMPLATE_DIR top) "openshift-infra/".
Definition TEMPLATE_CONFIGURE_PVC_MONITORING_POD (top : string) : string :=
  os_path_join (TEMPLATE_OPENSHIFT_INFRA_DIR top) "monitoring/".
Definition TEMPLATE_DEPLOYMENT_LOGGING (top : string) : string :=
  os_path_join (TEMPLATE_OPENSHIFT_INFRA_DIR top) "logging-deployment".
Definition TEMPLATE_DEPLOYMENT_EO (top : string) : string :=
  os_path_join (TEMPLATE_DEPLOYMENT_LOGGING top) "elasticsearch_operator".

Section MeasurementDir.
(** The directories of the machine are a store of their own, reached
    through [os.path.exists] and [os.mkdir]; [mkdir] may raise. *)
Context {store : Type}.
Context (os_path_exists : store -> string -> bool).
Context (os_mkdir : string -> store -> outcome unit * store).

(** [measurement_dir(tmp_path)]: [ENV_DATA] is [config.ENV_DATA], whose
    entry [measurement_dir] is a path when it is there; an empty string
    counts as no entry, as it is false in Python. *)
Definition measurement_dir (ENV_DATA : gmap string string) (tmp_path : string)
    (st : store) : outcome string * store :=
  let measurement_dir :=
    match ENV_DATA !! "measurement_dir" with
    | Some (String _ _ as configured) => configured
    | _ =>
        os_path_join (os_path_dirname tmp_path) "measurement_results"
    end in
  if negb (os_path_exists st measurement_dir) then
    match os_mkdir measurement_dir st with
    | (Ok _, st') => (Ok measurement_dir, st')
    | (Raise e, st') => (Raise e, st')
    end
  else (Ok measurement_dir, st).
End MeasurementDir.

(** The directory [measurement_dir] decides on, before it looks whether
    it exists. *)
Definition measurement_dir_path (ENV_DATA : gmap string string)
    (tmp_path : string) : string :=
  match ENV_DATA !! "measurement_dir" with
  | Some (String _ _ as configured) => configured
  | _ => os_path_join (os_path_dirname tmp_path) "measurement_results"
  end.

(** A store of directories to run [measurement_dir] on: the set of the
    paths that exist; [mkdir] wants the parent to exist. *)
Module SampleOs.

Definition exists_in (st : gset string) (p : string) : bool :=
  bool_decide (p ∈ st).

Definition mkdir (p : string) (st : gset string)
    : outcome unit * gset string :=
  if bool_decide (os_path_dirname p ∈ st) then (Ok tt, {[ p ]} ∪ st)
  else (Raise (FileNotFoundError p), st).

Definition session : gset string :=
  {[ "/tmp"; "/tmp/pytest-of-ci"; "/tmp/pytest-of-ci/pytest-0";
     "/tmp/pytest-of-ci/pytest-0/test_mgr0" ]}.

End SampleOs.

(** More sample data. *)
Module More.

Definition failing : M value :=
  run elapse 5 ;; raise (CommandFailed "oc scale").

(** The value an outcome holds, [None] for an exception. *)
Definition returned (o : outcome value) : value :=
  match o with
  | Ok v => v
  | Raise _ => VNone
  end.

Definition two_mons : list deployment :=
  [Deployment "rook-ceph-mon-a" MON_APP_LABEL 1;
   Deployment "rook-ceph-mon-b" MON_APP_LABEL 1].

Definition osd_file : string :=
  "/tmp/measurement_results/measure_stop_ceph_osd.json".

Definition two_answers : list (response value) :=
  [Response true Sample.alerts_url [Sample.mgr_pending];
   Response true Sample.alerts_url [Sample.mgr_pending; Sample.mgr_firing]].

Definition failed_answer : response value :=
  Response false Sample.alerts_url [].

(** Two alerts that Python finds equal: the items of the second stand
    in another order, and [True] stands for [1]. *)
Definition one_x : value := VDict [("a", VNum 1); ("b", VStr "x")].
Definition x_true : value := VDict [("b", VStr "x"); ("a", VBool true)].

Definition reordered_answers : list (response value) :=
  [Response true Sample.alerts_url [one_x; Sample.mgr_pending];
   Response true Sample.alerts_url
     [x_true; Sample.mgr_firing; Sample.mgr_pending]].

Definition configured : gmap string string :=
  {[ "measurement_dir" := "/tmp/results" ]}.

End More.

(** ** Equality of values *)

Lemma value_eqb_list (xs ys : list value) :
  value_eqb (VList xs) (VList ys) = true
  <-> Forall2 (fun x y => value_eqb x y = true) xs ys.
Proof.
  revert ys. induction xs as [ | x xs IH]; intros [ | y ys]; simpl.
  - split; [constructor | reflexivity].
  - split; [discriminate | inversion 1].
  - split; [discriminate | inversion 1].
  - rewrite andb_true_iff. split.
    + intros [Hx Hxs]. constructor; [exact Hx | apply IH, Hxs].
    + intros Hall. apply Forall2_cons_1 in Hall as [Hx Hxs].
      split; [exact Hx | apply IH, Hxs].
Qed.

Lemma value_eqb_dict (xs ys : list (string * value)) :
  value_eqb (VDict xs) (VDict ys) = true
  <-> List.length xs = List.length ys
      /\ (forall k x, (k, x) ∈ xs ->
            exists y, (k, y) ∈ ys /\ value_eqb x y = true).
Proof.
  simpl. rewrite andb_true_iff, Nat.eqb_eq.
  apply and_iff_compat_l.
  induction xs as [ | [k x] xs IH].
  - split; [intros _ k x Hin; inversion Hin | reflexivity].
  - rewrite andb_true_iff, IH, existsb_exists. split.
    + intros [([k' y] & Hin & Hitem) Hrest] k0 x0 Hin0.
      apply elem_of_cons in Hin0 as [[= -> ->] | Hin0]; [ | auto].
      simpl in Hitem. apply andb_true_iff in Hitem as [Hk Hx].
      apply String.eqb_eq in Hk. subst k'.
      exists y. split; [apply list_elem_of_In, Hin | exact Hx].
    + intros Hall. split; [ | intros k0 x0 Hin0; apply Hall; right; exact Hin0].
      destruct (Hall k x) as (y & Hin & Hx); [left | ].
      exists (k, y). split; [apply list_elem_of_In, Hin | ].
      simpl. rewrite String.eqb_refl, Hx. reflexivity.
Qed.

Lemma value_size_item (x : value) (xs : list value) :
  x ∈ xs -> (value_size x < value_size (VList xs))%nat.
Proof.
  simpl. induction 1 as [x xs | x y xs _ IH]; simpl; lia.
Qed.

Lemma value_size_entry (k : string) (x : value) (xs : list (string * value)) :
  (k, x) ∈ xs -> (value_size x < value_size (VDict xs))%nat.
Proof.
  simpl. intros Hin. remember (k, x) as item eqn:E.
  induction Hin as [item xs | item other xs _ IH]; subst; simpl; [lia | ].
  specialize (IH eq_refl). lia.
Qed.

(** Induction on values through their lists and dicts. *)
Lemma value_size_ind (P : value -> Prop) :
  (forall v, (forall u, (value_size u < value_size v)%nat -> P u) -> P v) ->
  forall v, P v.
Proof.
  intros Hstep v. remember (S (value_size v)) as n eqn:En.
  assert (Hlt : (value_size v < n)%nat) by lia. clear En.
  revert v Hlt. induction n as [ | n IH]; intros v Hlt; [lia | ].
  apply Hstep. intros u Hu. apply IH. lia.
Qed.

(** A value equals itself. *)
Lemma value_eqb_refl : forall a, value_eqb a a = true.
Proof.
  induction a as [a IH] using value_size_ind.
  destruct a as [ | x | x | x | xs | xs | x].
  - reflexivity.
  - destruct x; reflexivity.
  - apply Z.eqb_refl.
  - apply String.eqb_refl.
  - apply value_eqb_list, Forall2_same_length_lookup.
    split; [reflexivity | ].
    intros i x y Hx Hy. rewrite Hx in Hy. injection Hy as <-.
    apply IH, value_size_item, (list_elem_of_lookup_2 _ i), Hx.
  - apply value_eqb_dict. split; [reflexivity | ].
    intros k x Hin. exists x. split; [exact Hin | ].
    apply IH, (value_size_entry k), Hin.
  - apply String.eqb_refl.
Qed.

(** What equals a value that equals a third equals the third. *)
Lemma value_eqb_trans : forall a b c,
  value_eqb a b = true -> value_eqb b c = true -> value_eqb a c = true.
Proof.
  induction a as [a IH] using value_size_ind.
  intros b c Hab Hbc.
  destruct a as [ | x | x | x | xs | xs | x],
           b as [ | y | y | y | ys | ys | y];
    try (simpl in Hab; discriminate Hab);
    destruct c as [ | z | z | z | zs | zs | z];
    try (simpl in Hbc; discriminate Hbc).
  - reflexivity.
  - simpl in *. apply Bool.eqb_prop in Hab, Hbc. subst.
    destruct z; reflexivity.
  - simpl in *. apply Bool.eqb_prop in Hab. subst. exact Hbc.
  - simpl in *. apply Z.eqb_eq in Hab, Hbc.
    destruct x, z; simpl in *; try reflexivity; lia.
  - simpl in *. apply Z.eqb_eq in Hab, Hbc. apply Z.eqb_eq. lia.
  - simpl in *. apply Z.eqb_eq in Hab. apply Bool.eqb_prop in Hbc.
    apply Z.eqb_eq. subst. reflexivity.
  - simpl in *. apply Z.eqb_eq in Hab, Hbc. apply Z.eqb_eq. lia.
  - simpl in *. apply Z.eqb_eq in Hab, Hbc. apply Z.eqb_eq. lia.
  - simpl in *. apply Z.eqb_eq in Hab, Hbc. apply Z.eqb_eq. lia.
  - simpl in *. apply String.eqb_eq in Hab, Hbc. apply String.eqb_eq.
    congruence.
  - apply value_eqb_list in Hab, Hbc. apply value_eqb_list.
    apply Forall2_same_length_lookup.
    pose proof (Forall2_length _ _ _ Hab) as Hlab.
    pose proof (Forall2_length _ _ _ Hbc) as Hlbc.
    split; [congruence | ].
    intros i x z Hx Hz.
    destruct (ys !! i) as [y | ] eqn:Hy.
    + apply (IH x) with y.
      * apply value_size_item, (list_elem_of_lookup_2 _ i), Hx.
      * exact (Forall2_lookup_lr _ _ _ _ _ _ Hab Hx Hy).
      * exact (Forall2_lookup_lr _ _ _ _ _ _ Hbc Hy Hz).
    + apply lookup_ge_None in Hy. apply lookup_lt_Some in Hx. lia.
  - apply value_eqb_dict in Hab as [Hlab Hab], Hbc as [Hlbc Hbc].
    apply value_eqb_dict. split; [congruence | ].
    intros k x Hin.
    destruct (Hab k x Hin) as (y & Hy & Hxy).
    destruct (Hbc k y Hy) as (z & Hz & Hyz).
    exists z. split; [exact Hz | ].
    apply (IH x) with y; [apply (value_size_entry k), Hin | exact Hxy | exact Hyz].
  - simpl in *. apply String.eqb_eq in Hab, Hbc. apply String.eqb_eq.
    congruence.
Qed.

(** ** The monad at work *)

Lemma bind_ok {A B} (m : M A) (k : A -> M B) w a w' :
  m w = (Ok a, w') -> bind m k w = k a w'.
Proof. intros E. unfold bind. rewrite E. reflexivity. Qed.

Lemma bind_raise {A B} (m : M A) (k : A -> M B) w e w' :
  m w = (Raise e, w') -> bind m k w = (Raise e, w').
Proof. intros E. unfold bind. rewrite E. reflexivity. Qed.

Lemma cached_test (w : world) (path : string) :
  bool_decide (is_Some (fs w !! path))
  && match fs w !! path with Some f => readable f | None => false end
  = cached w path.
Proof.
  unfold cached. destruct (fs w !! path) as [f | ]; [ | reflexivity].
  rewrite bool_decide_eq_true_2 by eauto. reflexivity.
Qed.

(** ** The cache *)

Section Cache.
Context `{Json}.

(** With a readable result file, [measure_operation] is the load of
    that file and nothing else. *)
Lemma measure_operation_hit env operation result_file minimal_time metadata
    measure_after w f :
  fs w !! result_file = Some f ->
  readable f = true ->
  measure_operation env operation result_file minimal_time metadata
    measure_after w
  = (loaded (content f), w).
Proof.
  intros Hf Hr.
  unfold measure_operation, bind, os_path_isfile, os_access_R_OK, reads.
  rewrite cached_test. unfold cached. rewrite Hf, Hr.
  unfold load_file, loaded, ret. rewrite Hf, Hr.
  destruct (json_load (content f)); reflexivity.
Qed.

(** C2: for a result file that exists and is readable,
    [measure_operation] returns what deserialising that file gives and
    leaves the world as it was: the outcome does not depend on the
    operation (it is not invoked), no thread is started, no call to the
    alerting API is counted, the file system is the same; and a second
    call, whatever its other arguments, yields the same outcome
    again. *)
Theorem measure_operation_cached_idempotent env operation result_file
    minimal_time metadata measure_after w f :
  fs w !! result_file = Some f ->
  readable f = true ->
  let first := measure_operation env operation result_file minimal_time
                 metadata measure_after w in
  fst first = loaded (content f)
  /\ snd first = w
  /\ trace (snd first) = trace w
  /\ api_calls (snd first) = api_calls w
  /\ fs (snd first) = fs w
  /\ (forall env' operation' minimal_time' metadata' measure_after',
        measure_operation env' operation' result_file minimal_time'
          metadata' measure_after' (snd first) = first).
Proof.
  intros Hf Hr first. subst first.
  rewrite (measure_operation_hit _ _ _ _ _ _ _ _ Hf Hr). simpl.
  repeat split; try reflexivity.
  intros. apply (measure_operation_hit _ _ _ _ _ _ _ _ Hf Hr).
Qed.

End Cache.

(** ** The rounds of the watcher *)

Lemma poll_pause_pos : 0 < poll_pause.
Proof. reflexivity. Qed.

Lemma test_time_add (env : environment) (t0 : Z) (k n : nat) :
  test_time env t0 k + Z.of_nat n * poll_pause <= test_time env t0 (k + n).
Proof.
  induction n as [ | n IH].
  - rewrite Nat.add_0_r. lia.
  - rewrite Nat.add_succ_r. simpl test_time.
    pose proof poll_pause_pos. lia.
Qed.

Lemma test_time_mono (env : environment) (t0 : Z) (k k' : nat) :
  (k <= k')%nat -> test_time env t0 k <= test_time env t0 k'.
Proof.
  intros Hle. replace k' with (k + (k' - k))%nat by lia.
  pose proof (test_time_add env t0 k (k' - k)).
  pose proof poll_pause_pos. nia.
Qed.

Lemma rounds_from_spec (env : environment) (t0 deadline : Z)
    (fuel k0 k : nat) :
  deadline <= test_time env t0 (k0 + fuel) ->
  (k < rounds_from env t0 deadline fuel k0)%nat
  <-> test_time env t0 (k0 + k) < deadline.
Proof.
  revert k0 k. induction fuel as [ | fuel IH]; intros k0 k Hend; simpl.
  - rewrite Nat.add_0_r in Hend.
    pose proof (test_time_mono env t0 k0 (k0 + k)). lia.
  - destruct (test_time env t0 k0 <? deadline) eqn:E.
    + apply Z.ltb_lt in E. destruct k as [ | k].
      * rewrite Nat.add_0_r. split; [intros _; exact E | lia].
      * rewrite <- Nat.succ_lt_mono, (IH (S k0) k).
        -- replace (S k0 + k)%nat with (k0 + S k)%nat by lia. reflexivity.
        -- replace (S k0 + fuel)%nat with (k0 + S fuel)%nat by lia.
           exact Hend.
    + apply Z.ltb_ge in E.
      pose proof (test_time_mono env t0 k0 (k0 + k)). lia.
Qed.

(** The bound on the rounds is large enough: the rounds counted are
    exactly those whose test of [info.get('run')] comes before the
    deadline. *)
Lemma rounds_spec (env : environment) (t0 deadline : Z) (k : nat) :
  (k < rounds env t0 deadline)%nat <-> test_time env t0 k < deadline.
Proof.
  unfold rounds. apply (rounds_from_spec env t0 deadline _ 0 k).
  set (bound := Z.to_nat ((deadline - t0) / poll_pause + 1)).
  pose proof (test_time_add env t0 0 bound) as Hadd. simpl in Hadd.
  pose proof poll_pause_pos as Hpos.
  pose proof (Z.mul_div_le (deadline - t0) poll_pause Hpos).
  pose proof (Z.mod_pos_bound (deadline - t0) poll_pause Hpos).
  pose proof (Z.div_mod (deadline - t0) poll_pause ltac:(lia)).
  assert (Hbound : (deadline - t0) / poll_pause + 1 <= Z.of_nat bound).
  { subst bound. lia. }
  simpl. nia.
Qed.

(** One answer is received in each round. *)
Lemma received_length (env : environment) (t0 deadline : Z) :
  List.length (received env t0 deadline) = rounds env t0 deadline.
Proof. unfold received. rewrite length_map, length_seq. reflexivity. Qed.

(** ** A run that measures *)

Ltac bind_with E := erewrite bind_ok by (exact E).
Ltac bind_refl := erewrite bind_ok by reflexivity.

Lemma thread_start_eq env w :
  thread_start env w = (Ok (now w), started env w).
Proof. reflexivity. Qed.

Lemma time_sleep_eq env secs w :
  0 <= secs ->
  time_sleep env secs w
  = (Ok tt, log (Slept secs)
              (set_cluster (operator env secs (cluster w))
                 (set_now (now w + secs + Z.of_N (oversleep env)) w))).
Proof.
  intros Hsecs. unfold time_sleep.
  destruct (secs <? 0) eqn:E; [apply Z.ltb_lt in E; lia | reflexivity].
Qed.

Lemma minimal_time_wait env (minimal_time : option Z) passed_time w :
  match minimal_time with
  | Some minimal =>
      if minimal =? 0 then ret tt
      else
        let additional_time := seconds minimal - passed_time in
        if 0 <? additional_time then time_sleep env additional_time
        else ret tt
  | None => ret tt
  end w
  = (Ok tt, extended env minimal_time passed_time w).
Proof.
  unfold extended. destruct minimal_time as [minimal | ]; [ | reflexivity].
  destruct (minimal =? 0); [reflexivity | ]. cbv zeta.
  destruct (0 <? seconds minimal - passed_time) eqn:E; [ | reflexivity].
  apply Z.ltb_lt in E. apply time_sleep_eq. lia.
Qed.

Lemma thread_join_eq `{Json} env t0 w :
  thread_join env t0 w = (Ok (gathered env t0 (now w)), joined env t0 w).
Proof.
  unfold thread_join, gathered, joined, polls_made, watcher_exit.
  unfold bind at 1. unfold time_time, reads.
  destruct (prometheus_log value_eqb (received env t0 (now w)) [] 0)
    as [[ex acc] calls].
  reflexivity.
Qed.

Section Miss.
Context `{Json}.

(** Without a readable result file, and with an operation that
    returns, [measure_operation] comes down to the save of the record
    it has built. *)
Lemma measure_operation_miss env operation result_file minimal_time metadata
    measure_after w result w1 :
  cached w result_file = false ->
  operation (started env w) = (Ok result, w1) ->
  measure_operation env operation result_file minimal_time metadata
    measure_after w
  = let start_time := if measure_after then now w1 else now w in
    let t := now w1 + Z.of_N (clock_read_delay env) in
    let w2 := extended env minimal_time (t - start_time) (set_now t w1) in
    let stop_time := now w2 + Z.of_N (clock_read_delay env) in
    let results :=
      measurement_record start_time stop_time result metadata
        (gathered env (now w) stop_time) in
    (run open_w result_file ;;
     run dump_file results result_file ;;
     ret results) (joined env (now w) (set_now stop_time w2)).
Proof.
  intros Hmiss Hop.
  unfold measure_operation.
  unfold bind at 1. unfold os_path_isfile at 1, reads at 1.
  unfold bind at 1. unfold os_access_R_OK at 1, reads at 1.
  rewrite cached_test, Hmiss. cbv beta iota zeta.
  destruct measure_after; cbv beta iota; unfold negb.
  - bind_refl. bind_with (thread_start_eq env w). bind_with Hop.
    bind_refl. bind_refl. bind_refl.
    erewrite bind_ok by apply minimal_time_wait.
    bind_refl. bind_refl. erewrite bind_ok by apply thread_join_eq.
    reflexivity.
  - bind_refl. bind_with (thread_start_eq env w). bind_with Hop.
    bind_refl. bind_refl. bind_refl.
    erewrite bind_ok by apply minimal_time_wait.
    bind_refl. bind_refl. erewrite bind_ok by apply thread_join_eq.
    reflexivity.
Qed.

(** When the operation raises, the exception leaves
    [measure_operation] at once: nothing is saved. *)
Lemma measure_operation_op_raises env operation result_file minimal_time
    metadata measure_after w e w1 :
  cached w result_file = false ->
  operation (started env w) = (Raise e, w1) ->
  measure_operation env operation result_file minimal_time metadata
    measure_after w = (Raise e, w1).
Proof.
  intros Hmiss Hop.
  unfold measure_operation.
  unfold bind at 1. unfold os_path_isfile at 1, reads at 1.
  unfold bind at 1. unfold os_access_R_OK at 1, reads at 1.
  rewrite cached_test, Hmiss. cbv beta iota zeta.
  destruct measure_after; cbv beta iota; unfold negb;
    bind_refl; bind_with (thread_start_eq env w);
    erewrite bind_raise by exact Hop; reflexivity.
Qed.

End Miss.

(** ** Saving the record *)

Section Save.
Context `{Json}.

Lemma save_permitted results result_file w :
  permitted w result_file = true ->
  (run open_w result_file ;;
   run dump_file results result_file ;;
   ret results) w
  = (if snd (json_dump results) then Ok results else Raise TypeError,
     saved result_file (fst (json_dump results)) w).
Proof.
  unfold permitted, saved, bind, open_w, dump_file.
  destruct (json_dump results) as [text complete]. simpl.
  destruct (fs w !! result_file) as [f | ] eqn:Hf.
  - intros ->. unfold bind, file_write, update, log, set_fs. simpl.
    rewrite alter_insert_eq. destruct complete; reflexivity.
  - intros _. unfold bind, file_write, update, log, set_fs. simpl.
    rewrite alter_insert_eq. destruct complete; reflexivity.
Qed.

Lemma save_denied results result_file w f :
  fs w !! result_file = Some f ->
  writable f = false ->
  (run open_w result_file ;;
   run dump_file results result_file ;;
   ret results) w
  = (Raise (PermissionError result_file), w).
Proof.
  intros Hf Hw. unfold bind, open_w. rewrite Hf, Hw. reflexivity.
Qed.

(** What the save returns, if it returns, is the record it was given. *)
Lemma save_returns results result_file w r w' :
  (run open_w result_file ;;
   run dump_file results result_file ;;
   ret results) w = (Ok r, w') ->
  r = results.
Proof.
  destruct (permitted w result_file) eqn:Hp.
  - rewrite (save_permitted _ _ _ Hp).
    destruct (snd (json_dump results)); congruence.
  - unfold permitted in Hp.
    destruct (fs w !! result_file) as [f | ] eqn:Hf; [ | discriminate].
    rewrite (save_denied _ _ _ _ Hf Hp). discriminate.
Qed.

End Save.

Lemma extended_clock env minimal_time passed_time w :
  now (extended env minimal_time passed_time w)
  = now w + extension env minimal_time passed_time.
Proof.
  unfold extended, extension.
  destruct minimal_time as [minimal | ]; [ | simpl; lia].
  destruct (minimal =? 0); [simpl; lia | ].
  destruct (0 <? seconds minimal - passed_time); simpl; lia.
Qed.


Lemma field_start a b r m l :
  field "start" (measurement_record a b r m l) = Some (VNum a).
Proof. reflexivity. Qed.

Lemma field_stop a b r m l :
  field "stop" (measurement_record a b r m l) = Some (VNum b).
Proof. reflexivity. Qed.

Lemma field_result a b r m l :
  field "result" (measurement_record a b r m l) = Some r.
Proof. reflexivity. Qed.

Lemma field_alerts a b r m l :
  field "prometheus_alerts" (measurement_record a b r m l) = Some (VList l).
Proof. reflexivity. Qed.

(** ** Time stamps *)

Section Timestamps.
Context `{Json}.


(** C4: when the measurement runs, with [measure_after] false the start
    is the clock at the call, before the watcher is started and the
    operation invoked; with [measure_after] true it is the clock at the
    return of the operation.  In both modes the extension is decided on
    the time passed since that start, once the operation has returned,
    and the stop is read after it.  The two starts differ by the time
    to start the watcher plus the duration of the operation. *)
Theorem timestamp_capture_policy env operation result_file minimal_time
    metadata w result w1 r_before w_before r_after w_after :
  cached w result_file = false ->
  operation (started env w) = (Ok result, w1) ->
  measure_operation env operation result_file minimal_time metadata
    false w = (Ok r_before, w_before) ->
  measure_operation env operation result_file minimal_time metadata
    true w = (Ok r_after, w_after) ->
  let read := Z.of_N (clock_read_delay env) in
  let duration := now w1 - now (started env w) in
  field "start" r_before = Some (VNum (now w))
  /\ now w <= now (started env w)
  /\ field "start" r_after = Some (VNum (now w1))
  /\ field "stop" r_before
     = Some (VNum (now w1 + read
                   + extension env minimal_time (now w1 + read - now w)
                   + read))
  /\ field "stop" r_after
     = Some (VNum (now w1 + read
                   + extension env minimal_time (now w1 + read - now w1)
                   + read))
  /\ now w1 - now w = Z.of_N (thread_start_delay env) + duration.
Proof.
  intros Hmiss Hop Hbefore Hafter read duration.
  rewrite (measure_operation_miss _ _ _ _ _ _ _ _ _ Hmiss Hop) in Hbefore.
  rewrite (measure_operation_miss _ _ _ _ _ _ _ _ _ Hmiss Hop) in Hafter.
  cbv zeta in Hbefore, Hafter.
  apply save_returns in Hbefore. apply save_returns in Hafter.
  subst r_before r_after. subst read duration.
  rewrite !field_start, !field_stop, !extended_clock. simpl.
  repeat split; try reflexivity; lia.
Qed.

End Timestamps.

(** ** The accumulated alerts *)

Section Dedup.
Context {A : Type} (eqb : A -> A -> bool).

Lemma contains_exists (l : list A) (a : A) :
  contains eqb l a = true <-> exists b, b ∈ l /\ eqb b a = true.
Proof.
  unfold contains. rewrite existsb_exists.
  split; intros (b & Hin & Heq); exists b;
    (split; [apply list_elem_of_In, Hin | exact Heq]).
Qed.

Lemma seen_before_exists (l : list A) (a : A) :
  seen_before eqb l a = true <-> exists b, b ∈ l /\ eqb b a = true.
Proof.
  unfold seen_before. rewrite negb_true_iff. split.
  - intros Hnot. induction l as [ | b l IH]; [discriminate | ].
    simpl in Hnot. apply andb_false_iff in Hnot as [Hb | Hl].
    + exists b. split; [left | ]. apply negb_false_iff, Hb.
    + destruct (IH Hl) as (b' & Hin & Heq). exists b'. split; [right | ]; auto.
  - intros (b & Hin & Heq). induction Hin as [b l | b b' l _ IH]; simpl.
    + rewrite Heq. reflexivity.
    + rewrite (IH Heq). apply andb_false_r.
Qed.

Lemma seen_before_contains (l : list A) (a : A) :
  seen_before eqb l a = contains eqb l a.
Proof.
  apply eq_true_iff_eq. rewrite seen_before_exists, contains_exists.
  reflexivity.
Qed.

Lemma contains_app (l l' : list A) (a : A) :
  contains eqb (l ++ l') a = contains eqb l a || contains eqb l' a.
Proof. unfold contains. apply existsb_app. Qed.

Lemma omap_agree {B C} (f g : B -> option C) (l : list B) :
  Forall (fun x => f x = g x) l -> omap f l = omap g l.
Proof.
  induction 1 as [ | x l Hx _ IH]; [reflexivity | ].
  csimpl. rewrite Hx, IH. reflexivity.
Qed.

(** One more element at the end of the stream: it is kept when the
    stream did not have its equal. *)
Lemma first_occurrences_snoc (pre : list A) (a : A) :
  first_occurrences eqb (pre ++ [a])
  = first_occurrences eqb pre ++ (if seen_before eqb pre a then [] else [a]).
Proof.
  unfold first_occurrences.
  rewrite length_app. simpl List.length.
  replace (List.length pre + 1)%nat with (S (List.length pre)) by lia.
  rewrite seq_S, omap_app. simpl.
  f_equal.
  - apply omap_agree, Forall_forall. intros i Hi.
    apply list_elem_of_In, in_seq in Hi.
    rewrite lookup_app_l by lia.
    rewrite take_app_le by lia. reflexivity.
  - rewrite list_lookup_middle by reflexivity.
    rewrite take_app_length.
    destruct (seen_before eqb pre a); reflexivity.
Qed.

(** The first occurrences stand in the order of the stream. *)
Lemma first_occurrences_sublist (l : list A) :
  sublist (first_occurrences eqb l) l.
Proof.
  induction l as [ | x l IH] using rev_ind; [constructor | ].
  rewrite first_occurrences_snoc.
  destruct (seen_before eqb l x).
  - rewrite app_nil_r. apply sublist_inserts_r, IH.
  - apply sublist_app; [exact IH | reflexivity].
Qed.

Lemma first_occurrences_elem (l : list A) (a : A) :
  a ∈ first_occurrences eqb l -> a ∈ l.
Proof.
  intros Hin. exact (elem_of_sublist _ _ _ Hin (first_occurrences_sublist l)).
Qed.

(** An element that has no equal before it is kept. *)
Lemma first_occurrences_kept (l : list A) (i : nat) (a : A) :
  l !! i = Some a ->
  (forall j b, (j < i)%nat -> l !! j = Some b -> eqb b a = false) ->
  a ∈ first_occurrences eqb l.
Proof.
  intros Hi Hnew. unfold first_occurrences.
  apply list_elem_of_omap. exists i. split.
  - apply list_elem_of_In, in_seq. apply lookup_lt_Some in Hi. lia.
  - rewrite Hi.
    destruct (seen_before eqb (take i l) a) eqn:E; [ | reflexivity].
    apply seen_before_exists in E as (b & Hin & Heq).
    apply list_elem_of_lookup in Hin as [j Hj].
    apply lookup_take_Some in Hj as [Hj Hlt].
    rewrite (Hnew j b Hlt Hj) in Heq. discriminate.
Qed.

(** No entry equals an entry after it. *)
Lemma first_occurrences_distinct (l : list A) (i j : nat) (a b : A) :
  (i < j)%nat ->
  first_occurrences eqb l !! i = Some a ->
  first_occurrences eqb l !! j = Some b ->
  eqb a b = false.
Proof.
  revert i j a b. induction l as [ | x l IH] using rev_ind;
    intros i j a b Hlt Hi Hj.
  - discriminate.
  - rewrite first_occurrences_snoc in Hi, Hj.
    destruct (seen_before eqb l x) eqn:E.
    + rewrite app_nil_r in Hi, Hj. exact (IH i j a b Hlt Hi Hj).
    + apply lookup_app_Some in Hj as [Hj | [Hlen Hj]].
      * apply lookup_app_Some in Hi as [Hi | [Hlen _]].
        -- exact (IH i j a b Hlt Hi Hj).
        -- apply lookup_lt_Some in Hj. lia.
      * apply list_lookup_singleton_Some in Hj as [Hj0 <-].
        apply lookup_app_Some in Hi as [Hi | [Hlen' Hi]].
        -- destruct (eqb a x) eqn:Eax; [ | reflexivity].
           assert (Hseen : seen_before eqb l x = true).
           { apply seen_before_exists. exists a. split; [ | exact Eax].
             apply first_occurrences_elem, (list_elem_of_lookup_2 _ i), Hi. }
           congruence.
        -- apply list_lookup_singleton_Some in Hi as [Hi0 _]. lia.
Qed.

(** Appending from a list whose elements all have their equal changes
    nothing. *)
Lemma append_new_known (alerts alert_list : list A) :
  (forall a, a ∈ alerts -> contains eqb alert_list a = true) ->
  append_new eqb alerts alert_list = alert_list.
Proof.
  induction alerts as [ | alert rest IH]; intros Hknown; simpl.
  - reflexivity.
  - rewrite (Hknown alert) by left.
    apply IH. intros a Ha. apply Hknown. right. exact Ha.
Qed.

Section Reflexive.
Hypothesis eqb_refl : forall a, eqb a a = true.

Lemma contains_elem (l : list A) (a : A) : a ∈ l -> contains eqb l a = true.
Proof. intros Hin. apply contains_exists. exists a. auto. Qed.

Lemma append_new_NoDup (alerts alert_list : list A) :
  NoDup alert_list -> NoDup (append_new eqb alerts alert_list).
Proof.
  revert alert_list.
  induction alerts as [ | alert rest IH]; intros alert_list Hnd; simpl.
  - exact Hnd.
  - apply IH. destruct (contains eqb alert_list alert) eqn:E; [exact Hnd | ].
    apply NoDup_app. split; [exact Hnd | ].
    split; [ | apply NoDup_singleton].
    intros x Hx Hxa. apply list_elem_of_singleton in Hxa. subst x.
    rewrite (contains_elem _ _ Hx) in E. discriminate.
Qed.

Lemma prometheus_log_NoDup (answers : list (response A))
    (alert_list : list A) (calls : nat) :
  NoDup alert_list ->
  NoDup (snd (fst (prometheus_log eqb answers alert_list calls))).
Proof.
  revert alert_list calls.
  induction answers as [ | r later IH]; intros alert_list calls Hnd; simpl.
  - exact Hnd.
  - destruct (ok r); [ | exact Hnd].
    apply IH, append_new_NoDup, Hnd.
Qed.

(** After the inner loop every alert it went through has its equal in
    the list. *)
Lemma append_new_contains (alerts alert_list : list A) (a : A) :
  contains eqb alert_list a = true \/ a ∈ alerts ->
  contains eqb (append_new eqb alerts alert_list) a = true.
Proof.
  revert alert_list.
  induction alerts as [ | alert rest IH]; intros alert_list; simpl.
  - intros [Hc | Hin]; [exact Hc | inversion Hin].
  - intros [Hc | Hin]; apply IH.
    + left. destruct (contains eqb alert_list alert); [exact Hc | ].
      rewrite contains_app, Hc. reflexivity.
    + apply elem_of_cons in Hin as [-> | Hin]; [left | right; exact Hin].
      destruct (contains eqb alert_list alert) eqn:E; [exact E | ].
      rewrite contains_app. apply orb_true_iff. right.
      apply contains_elem. left.
Qed.

End Reflexive.

Section Transitive.
Hypothesis eqb_trans :
  forall a b c, eqb a b = true -> eqb b c = true -> eqb a c = true.

(** An alert has its equal among the first occurrences exactly when it
    has its equal in the stream. *)
Lemma first_occurrences_seen (l : list A) (a : A) :
  seen_before eqb (first_occurrences eqb l) a = seen_before eqb l a.
Proof.
  apply eq_true_iff_eq. rewrite !seen_before_exists. split.
  - intros (b & Hin & Heq). exists b.
    split; [apply first_occurrences_elem, Hin | exact Heq].
  - induction l as [ | x l IH] using rev_ind.
    + intros (b & Hin & _). inversion Hin.
    + intros (b & Hin & Heq). rewrite first_occurrences_snoc.
      assert (Hleft : (exists b0, b0 ∈ l /\ eqb b0 a = true) ->
                      exists b0, b0 ∈ first_occurrences eqb l
                                      ++ (if seen_before eqb l x then [] else [x])
                                 /\ eqb b0 a = true).
      { intros Hl. destruct (IH Hl) as (b0 & Hin0 & Heq0).
        exists b0. split; [apply elem_of_app; left; exact Hin0 | exact Heq0]. }
      apply elem_of_app in Hin as [Hin | Hin]; [apply Hleft; eauto | ].
      apply list_elem_of_singleton in Hin. subst b.
      destruct (seen_before eqb l x) eqn:E.
      * apply Hleft. apply seen_before_exists in E as (s & Hs & Hsx).
        exists s. split; [exact Hs | exact (eqb_trans _ _ _ Hsx Heq)].
      * exists x. split; [apply elem_of_app; right; left | exact Heq].
Qed.

(** The list after the inner loop is the first occurrences of all that
    has been read. *)
Lemma append_new_first_occurrences (alerts pre : list A) :
  append_new eqb alerts (first_occurrences eqb pre)
  = first_occurrences eqb (pre ++ alerts).
Proof.
  revert pre. induction alerts as [ | alert rest IH]; intros pre.
  - rewrite app_nil_r. reflexivity.
  - simpl. rewrite <- seen_before_contains, first_occurrences_seen.
    replace (if seen_before eqb pre alert then first_occurrences eqb pre
             else first_occurrences eqb pre ++ [alert])
      with (first_occurrences eqb (pre ++ [alert])).
    + rewrite IH, <- app_assoc. reflexivity.
    + rewrite first_occurrences_snoc.
      destruct (seen_before eqb pre alert);
        [apply app_nil_r | reflexivity].
Qed.

Lemma prometheus_log_first_occurrences (answers : list (response A))
    (pre : list A) (calls : nat) :
  snd (fst (prometheus_log eqb answers (first_occurrences eqb pre) calls))
  = first_occurrences eqb (pre ++ polled answers).
Proof.
  revert pre calls.
  induction answers as [ | r later IH]; intros pre calls; simpl.
  - rewrite app_nil_r. reflexivity.
  - destruct (ok r).
    + rewrite append_new_first_occurrences, IH, <- app_assoc. reflexivity.
    + simpl. rewrite app_nil_r. reflexivity.
Qed.

End Transitive.

End Dedup.

(** C5: whatever the answers of the alerting API, and whatever the
    alerts are, as long as the test of equality behind
    [alert not in alert_list] holds between an alert and itself and
    carries over from one pair of alerts to the next, as [==] does on
    what [json()] returns: no entry of the list the watcher accumulates
    equals an entry after it; the list is the stream of the alerts read
    with each alert kept at its first occurrence and nowhere else, so it
    stands in the order of the stream; every alert of the stream has its
    equal in the list; and an alert that differs from all the alerts
    before it is kept, whatever it shares with them. *)
Theorem alert_list_deduplicated_in_first_seen_order {A : Type}
    (eqb : A -> A -> bool) (answers : list (response A)) :
  (forall a, eqb a a = true) ->
  (forall a b c, eqb a b = true -> eqb b c = true -> eqb a c = true) ->
  let alert_list := snd (fst (prometheus_log eqb answers [] 0)) in
  let stream := polled answers in
  (forall i j a b,
     (i < j)%nat -> alert_list !! i = Some a -> alert_list !! j = Some b ->
     eqb a b = false)
  /\ NoDup alert_list
  /\ alert_list = first_occurrences eqb stream
  /\ sublist alert_list stream
  /\ (forall a, a ∈ stream -> exists b, b ∈ alert_list /\ eqb b a = true)
  /\ (forall i a,
        stream !! i = Some a ->
        (forall j b, (j < i)%nat -> stream !! j = Some b -> eqb b a = false) ->
        a ∈ alert_list).
Proof.
  intros Hrefl Htrans alert_list stream.
  assert (Heq : alert_list = first_occurrences eqb stream).
  { subst alert_list stream.
    exact (prometheus_log_first_occurrences eqb Htrans answers [] 0). }
  rewrite Heq.
  split; [apply first_occurrences_distinct | ].
  split; [rewrite <- Heq; apply prometheus_log_NoDup; [exact Hrefl | constructor] | ].
  split; [reflexivity | ].
  split; [apply first_occurrences_sublist | ].
  split; [ | apply first_occurrences_kept].
  intros a Ha. apply seen_before_exists.
  rewrite (first_occurrences_seen eqb Htrans).
  apply seen_before_exists. exists a. split; [exact Ha | apply Hrefl].
Qed.

(** ** What a run leaves in the world *)

Lemma fs_extended env minimal_time passed_time w :
  fs (extended env minimal_time passed_time w) = fs w.
Proof.
  unfold extended. destruct minimal_time as [minimal | ]; [ | reflexivity].
  destruct (minimal =? 0); [reflexivity | ].
  destruct (0 <? seconds minimal - passed_time); reflexivity.
Qed.

Lemma commands_app (t1 t2 : list event) :
  commands (t1 ++ t2) = commands t1 ++ commands t2.
Proof. apply omap_app. Qed.

Lemma commands_extended env minimal_time passed_time w :
  commands (trace (extended env minimal_time passed_time w))
  = commands (trace w).
Proof.
  unfold extended. destruct minimal_time as [minimal | ]; [ | reflexivity].
  destruct (minimal =? 0); [reflexivity | ].
  destruct (0 <? seconds minimal - passed_time); [ | reflexivity].
  simpl. rewrite commands_app. apply app_nil_r.
Qed.

Section Persist.
Context `{Json}.

Lemma save_ok_inv results result_file w r w' :
  (run open_w result_file ;;
   run dump_file results result_file ;;
   ret results) w = (Ok r, w') ->
  r = results
  /\ permitted w result_file = true
  /\ snd (json_dump results) = true
  /\ w' = saved result_file (fst (json_dump results)) w.
Proof.
  destruct (permitted w result_file) eqn:Hp.
  - rewrite (save_permitted _ _ _ Hp).
    destruct (snd (json_dump results)); [ | discriminate].
    intros [= <- <-]. auto.
  - unfold permitted in Hp.
    destruct (fs w !! result_file) as [f | ] eqn:Hf; [ | discriminate].
    rewrite (save_denied _ _ _ _ Hf Hp). discriminate.
Qed.

(** C9, as the code has it: the record is written into the result file
    itself.  In a run that measures, with an operation that returns and
    a result file that may be opened for writing, the file is created
    or emptied and then holds exactly the text the encoder has written:
    the whole record when the encoder completes, and the call returns
    it; the part written before the failure when the encoder raises,
    and the call raises TypeError. *)
Theorem record_saved_in_place env operation result_file minimal_time
    metadata measure_after w result w1 :
  cached w result_file = false ->
  operation (started env w) = (Ok result, w1) ->
  permitted w1 result_file = true ->
  let out := measure_operation env operation result_file minimal_time
               metadata measure_after w in
  exists results f,
    field "result" results = Some result
    /\ fs (snd out) !! result_file = Some f
    /\ content f = fst (json_dump results)
    /\ fst out = (if snd (json_dump results) then Ok results
                  else Raise TypeError).
Proof.
  intros Hmiss Hop Hperm out. subst out.
  rewrite (measure_operation_miss _ _ _ _ _ _ _ _ _ Hmiss Hop). cbv zeta.
  rewrite save_permitted.
  2: { unfold permitted, joined. simpl. rewrite fs_extended. exact Hperm. }
  eexists _, _. split; [apply field_result | ].
  split; [ | split; [ | reflexivity]].
  - unfold saved. simpl. apply lookup_insert_eq.
  - reflexivity.
Qed.

(** C10, as the code has it: a result file that exists but is not
    readable is not used.  The watcher is started, the operation is
    invoked, the watcher is joined, having made its calls between the
    start of the run and the reading of the stop; then, the file being
    one that may be opened for writing, its text is replaced by the text
    of the new record, which the call returns when the encoder
    completes, without any error about the file that was there. *)
Theorem unreadable_result_file_replaced env operation result_file
    minimal_time metadata measure_after w f result w1 :
  fs w !! result_file = Some f ->
  readable f = false ->
  operation (started env w) = (Ok result, w1) ->
  permitted w1 result_file = true ->
  let out := measure_operation env operation result_file minimal_time
               metadata measure_after w in
  exists results w2 f' stop_time,
    trace (started env w) = trace w ++ [ThreadStarted]
    /\ trace (snd out)
       = trace w2 ++ [ThreadJoined; OpenedForWriting result_file;
                      Wrote result_file]
    /\ commands (trace w2) = commands (trace w1)
    /\ field "stop" results = Some (VNum stop_time)
    /\ api_calls (snd out)
       = (api_calls w2 + polls_made env (now w) stop_time)%nat
    /\ field "result" results = Some result
    /\ field "prometheus_alerts" results
       = Some (VList (gathered env (now w) stop_time))
    /\ fs (snd out) !! result_file = Some f'
    /\ content f' = fst (json_dump results)
    /\ fst out = (if snd (json_dump results) then Ok results
                  else Raise TypeError).
Proof.
  intros Hf Hr Hop Hperm out. subst out.
  assert (Hmiss : cached w result_file = false).
  { unfold cached. rewrite Hf. exact Hr. }
  rewrite (measure_operation_miss _ _ _ _ _ _ _ _ _ Hmiss Hop). cbv zeta.
  rewrite save_permitted.
  2: { unfold permitted, joined. simpl. rewrite fs_extended. exact Hperm. }
  eexists _, (extended env minimal_time _ (set_now _ w1)), _, _.
  split; [reflexivity | ].
  split; [unfold saved, joined; simpl; rewrite <- !app_assoc; reflexivity | ].
  split; [rewrite commands_extended; reflexivity | ].
  split; [apply field_stop | ].
  split; [reflexivity | ].
  split; [apply field_result | ].
  split; [apply field_alerts | ].
  split; [unfold saved; simpl; apply lookup_insert_eq | ].
  split; reflexivity.
Qed.

End Persist.

(** ** The cluster commands of the fixtures *)

Lemma for_each_scale (n : Z) (names : list string) (w : world) :
  for_each (fun name => exec_oc_cmd (Scale n name)) names w
  = (Ok tt, scaled_each n names w).
Proof.
  revert w. induction names as [ | name names IH]; intros w;
    [reflexivity | ].
  simpl. erewrite bind_ok by reflexivity. apply IH.
Qed.

Lemma commands_scaled_each (n : Z) (names : list string) (w : world) :
  commands (trace (scaled_each n names w))
  = commands (trace w) ++ map (Scale n) names.
Proof.
  unfold scaled_each. revert w.
  induction names as [ | name names IH]; intros w.
  - symmetry. apply app_nil_r.
  - change (fold_left _ (name :: names) w)
      with (fold_left (fun w name => executed (Scale n name) w) names
              (executed (Scale n name) w)).
    rewrite IH. change (trace (executed (Scale n name) w))
      with (trace w ++ [Exec (Scale n name)]).
    rewrite commands_app, <- app_assoc. reflexivity.
Qed.

Lemma fs_scaled_each (n : Z) (names : list string) (w : world) :
  fs (scaled_each n names w) = fs w.
Proof.
  unfold scaled_each. revert w.
  induction names as [ | name names IH]; intros w; [reflexivity | ].
  change (fold_left _ (name :: names) w)
    with (fold_left (fun w name => executed (Scale n name) w) names
            (executed (Scale n name) w)).
  rewrite IH. reflexivity.
Qed.

Lemma stop_mon_eq env (mons_to_stop : list string) (w : world) :
  stop_mon env mons_to_stop w
  = (Ok (VList (map VStr mons_to_stop)),
     slept env (seconds (60 * 12)) (scaled_each 0 mons_to_stop w)).
Proof.
  unfold stop_mon. erewrite bind_ok by apply for_each_scale.
  erewrite bind_ok by (apply time_sleep_eq; unfold seconds, ticks_per_second; lia).
  reflexivity.
Qed.

Lemma split_index_large (mons : list string) :
  (3 < List.length mons)%nat -> split_index mons = (List.length mons / 2)%nat.
Proof.
  intros Hn. unfold split_index.
  destruct (3 <? List.length mons)%nat eqn:E; [reflexivity | ].
  apply Nat.ltb_ge in E. lia.
Qed.

Lemma name_in_spec (name : string) (names : list string) :
  name_in name names = true <-> name ∈ names.
Proof.
  unfold name_in. rewrite existsb_exists. split.
  - intros (x & Hin & Heq). apply String.eqb_eq in Heq. subst.
    apply list_elem_of_In, Hin.
  - intros Hin. exists name.
    split; [apply list_elem_of_In, Hin | apply String.eqb_refl].
Qed.

Lemma old_mons_deleted_spec (mons_to_stop mons : list string) :
  forallb (fun mon => negb (name_in mon mons)) mons_to_stop = true
  <-> (forall mon, mon ∈ mons_to_stop -> mon ∉ mons).
Proof.
  rewrite forallb_forall. split.
  - intros Hall mon Hin Hmon. apply list_elem_of_In in Hin.
    specialize (Hall mon Hin). apply name_in_spec in Hmon.
    rewrite Hmon in Hall. discriminate.
  - intros Hall mon Hin. apply list_elem_of_In in Hin.
    destruct (name_in mon mons) eqn:E; [ | reflexivity].
    apply name_in_spec in E. destruct (Hall mon Hin E).
Qed.

(** ** The fixtures *)

Section Scenarios.
Context `{Json}.

(** C7, as the code has it: with more than three monitor deployments
    listed and no readable result file, the monitors chosen are the
    tail of the listing from index N // 2 on, N - N // 2 of them; the
    measurement scales exactly these to zero, in that order, and
    returns their names as its result.  After it has returned, the
    fixture lists the monitors again: if none of the stopped names is
    listed it returns the record; if one is still listed it scales each
    stopped deployment to 1 and raises the assertion error. *)
Theorem mon_stop_scenario env measurement_dir w r w1 :
  let test_file := os_path_join measurement_dir "measure_stop_ceph_mon.json" in
  let mons := listed MON_APP_LABEL w in
  let mons_to_stop := drop (List.length mons / 2) mons in
  (3 < List.length mons)%nat ->
  cached w test_file = false ->
  measure_operation env (stop_mon env mons_to_stop) test_file None VNone
    false w = (Ok r, w1) ->
  List.length mons_to_stop = (List.length mons - List.length mons / 2)%nat
  /\ commands (trace w1) = commands (trace w) ++ map (Scale 0) mons_to_stop
  /\ field "result" r = Some (VList (map VStr mons_to_stop))
  /\ ((forall mon, mon ∈ mons_to_stop -> mon ∉ listed MON_APP_LABEL w1) ->
        measure_stop_ceph_mon env measurement_dir w = (Ok r, w1))
  /\ ((exists mon, mon ∈ mons_to_stop /\ mon ∈ listed MON_APP_LABEL w1) ->
        exists w2,
          measure_stop_ceph_mon env measurement_dir w
          = (Raise (AssertionError
                      ("Downscaled monitors " +:+ repr_list mons_to_stop
                       +:+ " were not replaced")), w2)
          /\ commands (trace w2)
             = commands (trace w1) ++ map (Scale 1) mons_to_stop).
Proof.
  intros test_file mons mons_to_stop Hn Hmiss Hrun.
  assert (Hfix : forall k : value -> M value,
    (do measured_op <- measure_operation env (stop_mon env mons_to_stop)
                         test_file None VNone false ;; k measured_op) w
    = k r w1).
  { intros k. apply bind_ok, Hrun. }
  assert (Hunfold : measure_stop_ceph_mon env measurement_dir w
    = (do mon_deployments <- oc_get_selector MON_APP_LABEL ;;
       let mons' := map dep_name mon_deployments in
       let check_old_mons_deleted :=
         forallb (fun mon => negb (name_in mon mons')) mons_to_stop in
       if negb check_old_mons_deleted then
         run for_each (fun mon => exec_oc_cmd (Scale 1 mon)) mons_to_stop ;;
         raise (AssertionError
                  ("Downscaled monitors " +:+ repr_list mons_to_stop
                   +:+ " were not replaced"))
       else ret r) w1).
  { unfold measure_stop_ceph_mon.
    erewrite bind_ok by reflexivity. cbv zeta.
    fold (listed MON_APP_LABEL w). fold mons.
    rewrite (split_index_large mons Hn). fold mons_to_stop. fold test_file.
    apply Hfix. }
  pose proof Hrun as Hrun'.
  rewrite (measure_operation_miss _ _ _ _ _ _ _ _ _ Hmiss
             (stop_mon_eq env mons_to_stop (started env w))) in Hrun'.
  cbv zeta in Hrun'. apply save_ok_inv in Hrun' as (Hr & _ & _ & Hw1).
  split; [subst mons_to_stop; rewrite length_drop; reflexivity | ].
  split.
  { rewrite Hw1. unfold saved, joined. simpl.
    rewrite !commands_app. simpl. rewrite !app_nil_r.
    rewrite commands_scaled_each. simpl.
    rewrite commands_app. simpl. rewrite app_nil_r. reflexivity. }
  split; [rewrite Hr; apply field_result | ].
  split.
  - intros Hgone. rewrite Hunfold.
    erewrite bind_ok by reflexivity. cbv zeta.
    fold (listed MON_APP_LABEL w1).
    rewrite (proj2 (old_mons_deleted_spec _ _) Hgone). reflexivity.
  - intros (mon & Hstopped & Hstill).
    exists (scaled_each 1 mons_to_stop w1).
    split; [ | apply commands_scaled_each].
    rewrite Hunfold. erewrite bind_ok by reflexivity. cbv zeta.
    fold (listed MON_APP_LABEL w1).
    destruct (forallb (fun mon0 => negb (name_in mon0 (listed MON_APP_LABEL w1)))
                mons_to_stop) eqn:E.
    + destruct (proj1 (old_mons_deleted_spec _ _) E mon Hstopped Hstill).
    + simpl. erewrite bind_ok by apply for_each_scale. reflexivity.
Qed.

(** C8, as the code has it: when the result file exists, is readable
    and holds a text that json cannot decode, [measure_operation]
    raises JSONDecodeError whatever the operation, and the world is as
    it was; the three fixtures raise and leave the world as it was too:
    no command has been given to the cluster. *)
Theorem undecodable_result_file_aborts env operation minimal_time metadata
    measure_after measurement_dir result_file w f :
  fs w !! result_file = Some f ->
  readable f = true ->
  json_load (content f) = None ->
  measure_operation env operation result_file minimal_time metadata
    measure_after w = (Raise JSONDecodeError, w)
  /\ (result_file = os_path_join measurement_dir "measure_stop_ceph_mgr.json" ->
      exists e, measure_stop_ceph_mgr env measurement_dir w = (Raise e, w)
                /\ (e = JSONDecodeError \/ e = IndexError))
  /\ (result_file = os_path_join measurement_dir "measure_stop_ceph_mon.json" ->
      measure_stop_ceph_mon env measurement_dir w = (Raise JSONDecodeError, w))
  /\ (result_file = os_path_join measurement_dir "measure_stop_ceph_osd.json" ->
      exists e, measure_stop_ceph_osd env measurement_dir w = (Raise e, w)
                /\ (e = JSONDecodeError \/ e = IndexError)).
Proof.
  intros Hf Hr Hbad.
  assert (Hload : forall env' operation' minimal_time' metadata' measure_after',
    measure_operation env' operation' result_file minimal_time' metadata'
      measure_after' w = (Raise JSONDecodeError, w)).
  { intros. rewrite (measure_operation_hit _ _ _ _ _ _ _ _ Hf Hr).
    unfold loaded. rewrite Hbad. reflexivity. }
  split; [apply Hload | ].
  split; [ | split].
  - intros ->. unfold measure_stop_ceph_mgr.
    erewrite bind_ok by reflexivity.
    destruct (filter (fun d => dep_label d = MGR_APP_LABEL) (cluster w))
      as [ | d ds].
    + exists IndexError. split; [reflexivity | auto].
    + exists JSONDecodeError. split; [ | auto].
      erewrite bind_ok by reflexivity. cbv zeta.
      erewrite bind_raise by apply Hload. reflexivity.
  - intros ->. unfold measure_stop_ceph_mon.
    erewrite bind_ok by reflexivity. cbv zeta.
    erewrite bind_raise by apply Hload. reflexivity.
  - intros ->. unfold measure_stop_ceph_osd.
    erewrite bind_ok by reflexivity. cbv zeta.
    destruct (last_item (map dep_name
                (filter (fun d => dep_label d = OSD_APP_LABEL) (cluster w))))
      as [osd | e] eqn:E.
    + exists JSONDecodeError. split; [ | auto].
      erewrite bind_ok by reflexivity.
      erewrite bind_raise by apply Hload. reflexivity.
    + exists e. split.
      * erewrite bind_raise by reflexivity. reflexivity.
      * unfold last_item in E.
        destruct (last _); [discriminate | ]. injection E as <-. auto.
Qed.

End Scenarios.

(** ** The statements on concrete runs *)

(** C1: the code does not make a failed alert query fatal.  The
    operation takes seven seconds; the watcher makes its calls 40 ms,
    3.19 s and 6.34 s after the start of the run, and the third answer
    of the alerting API is not a success.  The assertion ends the
    watcher thread, which has then gathered the alerts of the first two
    answers; [logging_thread.join()] returns all the same, and
    [measure_operation] returns the record and has saved it in the
    result file. *)
Theorem alert_query_failure_is_not_fatal :
  let w := Sample.fresh [] in
  let out := measure_operation (H := Codec.json) Sample.failing_api
               Sample.slow "result.json" None VNone false w in
  let record := measurement_record 100 7000104 (VStr "done") VNone
                  [Sample.mgr_pending; Sample.mgr_firing] in
  map (test_time Sample.failing_api (now w)) [0; 1; 2; 3]%nat
  = [40100; 3190100; 6340100; 9490100]
  /\ received Sample.failing_api (now w) 7000104
     = take 3 Sample.failing_answers
  /\ watcher_exit Sample.failing_api (now w) 7000104
     = Died (AssertionError ("Request " +:+ Sample.alerts_url +:+ " failed"))
  /\ polls_made Sample.failing_api (now w) 7000104 = 3%nat
  /\ fst out = Ok record
  /\ trace (snd out)
     = [ThreadStarted; ThreadJoined;
        OpenedForWriting "result.json"; Wrote "result.json"]
  /\ (exists f, fs (snd out) !! "result.json" = Some f
                /\ Codec.decode (content f) = Some record).
Proof.
  cbv zeta. repeat split; try (vm_compute; reflexivity).
  eexists. split; vm_compute; reflexivity.
Qed.

(** C6: in the manager-stop scenario with one manager deployment and no
    result file, the operation scales the deployment to 0 and waits 360
    seconds, but the [result] of the record is the resource object that
    [oc.get(mgr)] returns for the deployment, not its name. *)
Theorem mgr_stop_result_is_the_resource_object :
  let out := measure_stop_ceph_mgr (H := Codec.json) Sample.quiet Sample.dir
               (Sample.fresh Sample.mgr_cluster) in
  listed MGR_APP_LABEL (Sample.fresh Sample.mgr_cluster) = ["rook-ceph-mgr-a"]
  /\ trace (snd out)
     = [ThreadStarted; Exec (Scale 0 "rook-ceph-mgr-a");
        Slept (seconds 360); ThreadJoined;
        OpenedForWriting Sample.mgr_file; Wrote Sample.mgr_file;
        Exec (Scale 1 "rook-ceph-mgr-a")]
  /\ (exists r, fst out = Ok r
        /\ field "result" r
           = Some (resource_of (Deployment "rook-ceph-mgr-a" MGR_APP_LABEL 0))
        /\ field "result" r <> Some (VStr "rook-ceph-mgr-a")).
Proof.
  cbv zeta. split; [vm_compute; reflexivity | ].
  split; [vm_compute; reflexivity | ].
  eexists. split; [vm_compute; reflexivity | ].
  split; [vm_compute; reflexivity | vm_compute; discriminate].
Qed.


(** Against C7 as stated: with four monitors listed and a readable result
    file from a former run, no monitor is scaled to zero; the listing
    still shows the chosen monitors, so the fixture scales them to 1 and
    raises. *)
Lemma mon_stop_with_cached_result_stops_nothing :
  let w := Sample.with_file Sample.mon_file (File true true Sample.old_text)
             Sample.mon_cluster in
  let out := measure_stop_ceph_mon (H := Codec.json) Sample.quiet Sample.dir w in
  (3 < List.length (listed MON_APP_LABEL w))%nat
  /\ commands (trace (snd out))
     = [Scale 1 "rook-ceph-mon-c"; Scale 1 "rook-ceph-mon-d"]
  /\ ~ (exists name, Scale 0 name ∈ commands (trace (snd out)))
  /\ fst out
     = Raise (AssertionError
                "Downscaled monitors ['rook-ceph-mon-c', 'rook-ceph-mon-d'] were not replaced").
Proof.
  cbv zeta. split; [vm_compute; lia | ].
  split; [vm_compute; reflexivity | ].
  split; [ | vm_compute; reflexivity].
  intros [name Hin].
  replace (commands _) with [Scale 1 "rook-ceph-mon-c"; Scale 1 "rook-ceph-mon-d"]
    in Hin by (vm_compute; reflexivity).
  apply list_elem_of_In in Hin. simpl in Hin.
  destruct Hin as [Heq | [Heq | []]]; discriminate.
Qed.

(** Against C8 as stated: a readable result file whose text is valid JSON
    but no measurement record is loaded without any error, and the
    manager fixture then gives a scale command to the cluster. *)
Lemma text_that_is_no_record_is_loaded :
  let w := Sample.with_file Sample.mgr_file (File true true "{}")
             Sample.mgr_cluster in
  let out := measure_stop_ceph_mgr (H := Codec.json) Sample.quiet Sample.dir w in
  json_load (Json := Codec.json) "{}" = Some (VDict [])
  /\ valid_record (VDict []) = false
  /\ measure_operation (H := Codec.json) Sample.quiet Sample.quick
       Sample.mgr_file None VNone false w = (Ok (VDict []), w)
  /\ fst out = Ok (VDict [])
  /\ commands (trace (snd out)) = [Scale 1 "rook-ceph-mgr-a"]
  /\ cluster (snd out) = cluster w.
Proof.
  cbv zeta. repeat split; vm_compute; reflexivity.
Qed.

(** Against C9 as stated: when the operation returns an object that json
    cannot encode, the save raises TypeError in the middle of the record
    and the result file is left with the part written so far; the next
    run finds the file and fails on it. *)
Lemma failed_save_leaves_a_partial_file :
  let out := measure_operation (H := Codec.json) Sample.quiet Sample.opaque
               "result.json" None VNone false (Sample.fresh []) in
  let partial :=
    "{" +:+ Codec.quoted "start" +:+ ": 100, " +:+ Codec.quoted "stop"
    +:+ ": 109, " +:+ Codec.quoted "result" +:+ ": " in
  fs (Sample.fresh []) !! "result.json" = None
  /\ fst out = Raise TypeError
  /\ fs (snd out) !! "result.json" = Some (File true true partial)
  /\ json_load (Json := Codec.json) partial = None
  /\ fst (measure_operation (H := Codec.json) Sample.quiet Sample.quick
            "result.json" None VNone false (snd out))
     = Raise JSONDecodeError.
Proof.
  cbv zeta. repeat split; vm_compute; reflexivity.
Qed.

(** Against C10 as stated: a result file that exists and may neither be
    read nor written is not replaced.  The measurement runs, watcher and
    operation and all; then [open(result_file, 'w')] raises
    PermissionError and the file is as it was. *)
Lemma unreadable_result_file_that_is_not_writable_stays :
  let old := File false false Sample.old_text in
  let w := Sample.with_file "result.json" old [] in
  let out := measure_operation (H := Codec.json) Sample.failing_api
               Sample.slow "result.json" None VNone false w in
  fs w !! "result.json" = Some old
  /\ readable old = false
  /\ trace (snd out) = [ThreadStarted; ThreadJoined]
  /\ api_calls (snd out) = 3%nat
  /\ now (snd out) = 7000104
  /\ fst out = Raise (PermissionError "result.json")
  /\ fs (snd out) !! "result.json" = Some old.
Proof.
  cbv zeta. repeat split; vm_compute; reflexivity.
Qed.

(** ** The general statements at concrete inputs *)

Lemma measure_operation_cached_idempotent_witness :
  let f := File true true Sample.old_text in
  let w := Sample.with_file Sample.mgr_file f Sample.mgr_cluster in
  let first := measure_operation (H := Codec.json) Sample.failing_api
                 Sample.opaque Sample.mgr_file (Some 1) VNone false w in
  fs w !! Sample.mgr_file = Some f
  /\ readable f = true
  /\ fst first = Ok Sample.old_record
  /\ snd first = w
  /\ measure_operation (H := Codec.json) Sample.quiet Sample.quick
       Sample.mgr_file None VNone true (snd first) = first.
Proof.
  cbv zeta.
  assert (Hf : fs (Sample.with_file Sample.mgr_file
                     (File true true Sample.old_text) Sample.mgr_cluster)
               !! Sample.mgr_file
               = Some (File true true Sample.old_text))
    by (vm_compute; reflexivity).
  destruct (measure_operation_cached_idempotent (H := Codec.json)
              Sample.failing_api Sample.opaque Sample.mgr_file (Some 1)
              VNone false _ _ Hf eq_refl)
    as (Hfst & Hsnd & _ & _ & _ & Hagain).
  split; [exact Hf | ]. split; [reflexivity | ].
  split; [rewrite Hfst; vm_compute; reflexivity | ].
  split; [exact Hsnd | apply Hagain].
Defined.



Lemma timestamp_capture_policy_witness :
  let w := Sample.fresh [] in
  let w1 := World ∅ 107 [] [ThreadStarted] 0 in
  let before := measure_operation (H := Codec.json) Sample.failing_api
                  Sample.quick "result.json" (Some 1) VNone false w in
  let after := measure_operation (H := Codec.json) Sample.failing_api
                 Sample.quick "result.json" (Some 1) VNone true w in
  let alerts := [Sample.mgr_pending] in
  let r_before := measurement_record 100 1000104 (VStr "done") VNone alerts in
  let r_after := measurement_record 107 1000111 (VStr "done") VNone alerts in
  cached w "result.json" = false
  /\ Sample.quick (started Sample.failing_api w) = (Ok (VStr "done"), w1)
  /\ before = (Ok r_before, snd before)
  /\ after = (Ok r_after, snd after)
  /\ field "start" r_before = Some (VNum (now w))
  /\ field "start" r_after = Some (VNum (now w1))
  /\ now w1 - now w = 2 + 5.
Proof.
  cbv zeta.
  assert (Hop : Sample.quick (started Sample.failing_api (Sample.fresh []))
                = (Ok (VStr "done"), World ∅ 107 [] [ThreadStarted] 0))
    by reflexivity.
  assert (Hbefore : measure_operation (H := Codec.json) Sample.failing_api
                      Sample.quick "result.json" (Some 1) VNone false
                      (Sample.fresh [])
                    = (Ok (measurement_record 100 1000104 (VStr "done") VNone
                             [Sample.mgr_pending]),
                       snd (measure_operation (H := Codec.json)
                              Sample.failing_api Sample.quick "result.json"
                              (Some 1) VNone false (Sample.fresh []))))
    by (vm_compute; reflexivity).
  assert (Hafter : measure_operation (H := Codec.json) Sample.failing_api
                     Sample.quick "result.json" (Some 1) VNone true
                     (Sample.fresh [])
                   = (Ok (measurement_record 107 1000111 (VStr "done") VNone
                            [Sample.mgr_pending]),
                      snd (measure_operation (H := Codec.json)
                             Sample.failing_api Sample.quick "result.json"
                             (Some 1) VNone true (Sample.fresh []))))
    by (vm_compute; reflexivity).
  destruct (timestamp_capture_policy (H := Codec.json) Sample.failing_api
              Sample.quick "result.json" (Some 1) VNone (Sample.fresh [])
              _ _ _ _ _ _ eq_refl Hop Hbefore Hafter)
    as (Hs1 & _ & Hs2 & _ & _ & Hd).
  split; [reflexivity | ]. split; [exact Hop | ].
  split; [exact Hbefore | ]. split; [exact Hafter | ].
  split; [exact Hs1 | ]. split; [exact Hs2 | exact Hd].
Defined.

Lemma alert_list_deduplicated_in_first_seen_order_witness :
  let answers := More.reordered_answers in
  let alert_list := snd (fst (prometheus_log value_eqb answers [] 0)) in
  (forall a, value_eqb a a = true)
  /\ (forall a b c,
        value_eqb a b = true -> value_eqb b c = true -> value_eqb a c = true)
  /\ polled answers
     = [More.one_x; Sample.mgr_pending; More.x_true; Sample.mgr_firing;
        Sample.mgr_pending]
  /\ alert_list = [More.one_x; Sample.mgr_pending; Sample.mgr_firing]
  /\ field "labels" Sample.mgr_pending = field "labels" Sample.mgr_firing
  /\ NoDup alert_list
  /\ alert_list = first_occurrences value_eqb (polled answers)
  /\ sublist alert_list (polled answers).
Proof.
  cbv zeta.
  destruct (alert_list_deduplicated_in_first_seen_order value_eqb
              More.reordered_answers value_eqb_refl value_eqb_trans)
    as (_ & Hnodup & Heq & Hsub & _ & _).
  split; [exact value_eqb_refl | ]. split; [exact value_eqb_trans | ].
  split; [reflexivity | ]. split; [vm_compute; reflexivity | ].
  split; [reflexivity | ]. split; [exact Hnodup | ].
  split; [exact Heq | exact Hsub].
Defined.

Lemma mon_stop_scenario_witness :
  let w := Sample.fresh Sample.mon_cluster in
  let stopped := ["rook-ceph-mon-c"; "rook-ceph-mon-d"] in
  let ran := measure_operation (H := Codec.json) Sample.self_healing
               (stop_mon Sample.self_healing stopped) Sample.mon_file None
               VNone false w in
  let r := measurement_record 100 720000107 (VList (map VStr stopped)) VNone
             [Sample.mgr_pending] in
  (3 < List.length (listed MON_APP_LABEL w))%nat
  /\ cached w Sample.mon_file = false
  /\ ran = (Ok r, snd ran)
  /\ commands (trace (snd ran)) = map (Scale 0) stopped
  /\ listed MON_APP_LABEL (snd ran)
     = ["rook-ceph-mon-a"; "rook-ceph-mon-b"; "rook-ceph-mon-c-new";
        "rook-ceph-mon-d-new"]
  /\ measure_stop_ceph_mon (H := Codec.json) Sample.self_healing Sample.dir w
     = (Ok r, snd ran).
Proof.
  cbv zeta.
  set (w := Sample.fresh Sample.mon_cluster).
  set (stopped := ["rook-ceph-mon-c"; "rook-ceph-mon-d"]).
  set (r := measurement_record 100 720000107 (VList (map VStr stopped)) VNone
              [Sample.mgr_pending]).
  assert (Hn : (3 < List.length (listed MON_APP_LABEL w))%nat)
    by (vm_compute; lia).
  assert (Hmiss : cached w Sample.mon_file = false) by reflexivity.
  assert (Hrun : measure_operation (H := Codec.json) Sample.self_healing
                   (stop_mon Sample.self_healing stopped) Sample.mon_file
                   None VNone false w
                 = (Ok r, snd (measure_operation (H := Codec.json)
                                 Sample.self_healing
                                 (stop_mon Sample.self_healing stopped)
                                 Sample.mon_file None VNone false w)))
    by (vm_compute; reflexivity).
  pose proof (mon_stop_scenario (H := Codec.json) Sample.self_healing
                Sample.dir w r _ Hn Hmiss Hrun) as (_ & Hcmd & _ & Hgone & _).
  split; [exact Hn | ]. split; [exact Hmiss | ]. split; [exact Hrun | ].
  split; [exact Hcmd | ].
  split; [vm_compute; reflexivity | ].
  apply Hgone. apply old_mons_deleted_spec. vm_compute. reflexivity.
Defined.

Lemma undecodable_result_file_aborts_witness :
  let f := File true true "not json" in
  let w := Sample.with_file Sample.mon_file f Sample.mon_cluster in
  fs w !! Sample.mon_file = Some f
  /\ readable f = true
  /\ json_load (Json := Codec.json) (content f) = None
  /\ measure_operation (H := Codec.json) Sample.quiet Sample.quick
       Sample.mon_file None VNone false w = (Raise JSONDecodeError, w)
  /\ measure_stop_ceph_mon (H := Codec.json) Sample.quiet Sample.dir w
     = (Raise JSONDecodeError, w).
Proof.
  cbv zeta.
  assert (Hf : fs (Sample.with_file Sample.mon_file
                     (File true true "not json") Sample.mon_cluster)
               !! Sample.mon_file = Some (File true true "not json"))
    by (vm_compute; reflexivity).
  assert (Hbad : json_load (Json := Codec.json)
                   (content (File true true "not json")) = None)
    by (vm_compute; reflexivity).
  destruct (undecodable_result_file_aborts (H := Codec.json) Sample.quiet
              Sample.quick None VNone false Sample.dir Sample.mon_file _ _
              Hf eq_refl Hbad) as (Hload & _ & Hmon & _).
  split; [exact Hf | ]. split; [reflexivity | ]. split; [exact Hbad | ].
  split; [exact Hload | ]. apply Hmon. vm_compute. reflexivity.
Defined.

Lemma record_saved_in_place_witness :
  let w := Sample.fresh [] in
  let w1 := World ∅ 107 [] [ThreadStarted] 0 in
  let out := measure_operation (H := Codec.json) Sample.quiet Sample.opaque
               "result.json" None VNone false w in
  cached w "result.json" = false
  /\ Sample.opaque (started Sample.quiet w)
     = (Ok (VObject "<Deployment object>"), w1)
  /\ permitted w1 "result.json" = true
  /\ exists results f,
       field "result" results = Some (VObject "<Deployment object>")
       /\ fs (snd out) !! "result.json" = Some f
       /\ content f = fst (json_dump (Json := Codec.json) results)
       /\ fst out = (if snd (json_dump (Json := Codec.json) results)
                     then Ok results else Raise TypeError).
Proof.
  cbv zeta.
  assert (Hop : Sample.opaque (started Sample.quiet (Sample.fresh []))
                = (Ok (VObject "<Deployment object>"),
                   World ∅ 107 [] [ThreadStarted] 0)) by reflexivity.
  split; [reflexivity | ]. split; [exact Hop | ]. split; [reflexivity | ].
  exact (record_saved_in_place (H := Codec.json) Sample.quiet Sample.opaque
           "result.json" None VNone false (Sample.fresh []) _ _
           eq_refl Hop eq_refl).
Defined.

Lemma unreadable_result_file_replaced_witness :
  let old := File false true Sample.old_text in
  let w := Sample.with_file "result.json" old [] in
  let w1 := World {[ "result.json" := old ]} 107 [] [ThreadStarted] 0 in
  let out := measure_operation (H := Codec.json) Sample.quiet Sample.quick
               "result.json" None VNone false w in
  fs w !! "result.json" = Some old
  /\ readable old = false
  /\ Sample.quick (started Sample.quiet w) = (Ok (VStr "done"), w1)
  /\ permitted w1 "result.json" = true
  /\ exists results w2 f' stop_time,
       trace (started Sample.quiet w) = trace w ++ [ThreadStarted]
       /\ trace (snd out)
          = trace w2 ++ [ThreadJoined; OpenedForWriting "result.json";
                         Wrote "result.json"]
       /\ commands (trace w2) = commands (trace w1)
       /\ field "stop" results = Some (VNum stop_time)
       /\ api_calls (snd out)
          = (api_calls w2 + polls_made Sample.quiet (now w) stop_time)%nat
       /\ field "result" results = Some (VStr "done")
       /\ field "prometheus_alerts" results
          = Some (VList (gathered Sample.quiet (now w) stop_time))
       /\ fs (snd out) !! "result.json" = Some f'
       /\ content f' = fst (json_dump (Json := Codec.json) results)
       /\ fst out = (if snd (json_dump (Json := Codec.json) results)
                     then Ok results else Raise TypeError).
Proof.
  cbv zeta.
  set (old := File false true Sample.old_text).
  set (w := Sample.with_file "result.json" old []).
  assert (Hf : fs w !! "result.json" = Some old) by (vm_compute; reflexivity).
  assert (Hop : Sample.quick (started Sample.quiet w)
                = (Ok (VStr "done"),
                   World {[ "result.json" := old ]} 107 [] [ThreadStarted] 0))
    by reflexivity.
  assert (Hperm : permitted
                    (World {[ "result.json" := old ]} 107 [] [ThreadStarted] 0)
                    "result.json" = true) by (vm_compute; reflexivity).
  split; [exact Hf | ]. split; [reflexivity | ]. split; [exact Hop | ].
  split; [exact Hperm | ].
  exact (unreadable_result_file_replaced (H := Codec.json) Sample.quiet
           Sample.quick "result.json" None VNone false w old _ _
           Hf eq_refl Hop Hperm).
Defined.

(** ** More on the watcher *)

Section WatcherList.
Context {A : Type} (eqb : A -> A -> bool).

(** The inner loop only appends: what the list held stays in front, in
    its order, and what is added comes from the alerts read. *)
Lemma append_new_extends (alerts alert_list : list A) :
  exists added,
    append_new eqb alerts alert_list = alert_list ++ added
    /\ (forall a, a ∈ added -> a ∈ alerts).
Proof.
  revert alert_list.
  induction alerts as [ | alert rest IH]; intros alert_list; simpl.
  - exists []. split; [symmetry; apply app_nil_r | ].
    intros a Ha. inversion Ha.
  - destruct (contains eqb alert_list alert).
    + destruct (IH alert_list) as (added & Heq & Hin).
      exists added. split; [exact Heq | ].
      intros a Ha. right. auto.
    + destruct (IH (alert_list ++ [alert])) as (added & Heq & Hin).
      exists (alert :: added). split.
      * rewrite Heq, <- app_assoc. reflexivity.
      * intros a Ha. apply elem_of_cons in Ha as [-> | Ha];
          [left | right; auto].
Qed.

Lemma prometheus_log_extends (answers : list (response A))
    (alert_list : list A) (calls : nat) :
  exists added,
    snd (fst (prometheus_log eqb answers alert_list calls))
    = alert_list ++ added
    /\ (forall a, a ∈ added -> a ∈ polled answers).
Proof.
  revert alert_list calls.
  induction answers as [ | r later IH]; intros alert_list calls; simpl.
  - exists []. split; [symmetry; apply app_nil_r | ].
    intros a Ha. inversion Ha.
  - destruct (ok r).
    + destruct (append_new_extends (alerts r) alert_list)
        as (added1 & Heq1 & Hin1).
      destruct (IH (append_new eqb (alerts r) alert_list) (S calls))
        as (added2 & Heq2 & Hin2).
      exists (added1 ++ added2). split.
      * rewrite Heq2, Heq1, <- app_assoc. reflexivity.
      * intros a Ha. apply elem_of_app.
        apply elem_of_app in Ha as [Ha | Ha]; [left | right]; auto.
    + exists []. split; [symmetry; apply app_nil_r | ].
      intros a Ha. inversion Ha.
Qed.

(** The counter of calls has no influence on the list. *)
Lemma prometheus_log_list_any_calls (answers : list (response A))
    (alert_list : list A) (calls calls' : nat) :
  snd (fst (prometheus_log eqb answers alert_list calls))
  = snd (fst (prometheus_log eqb answers alert_list calls')).
Proof.
  revert alert_list calls calls'.
  induction answers as [ | r later IH]; intros alert_list calls calls'; simpl.
  - reflexivity.
  - destruct (ok r); [apply IH | reflexivity].
Qed.

Lemma prometheus_log_all_ok (answers : list (response A))
    (alert_list : list A) (calls : nat) :
  Forall (fun r => ok r = true) answers ->
  fst (fst (prometheus_log eqb answers alert_list calls)) = Returned
  /\ snd (prometheus_log eqb answers alert_list calls)
     = (calls + List.length answers)%nat.
Proof.
  intros Hall. revert alert_list calls.
  induction Hall as [ | r later Hr _ IH]; intros alert_list calls; simpl.
  - split; [reflexivity | lia].
  - rewrite Hr. destruct (IH (append_new eqb (alerts r) alert_list) (S calls))
      as [Hexit Hcalls].
    split; [exact Hexit | rewrite Hcalls; lia].
Qed.

Lemma prometheus_log_first_failure (before later : list (response A))
    (bad : response A) (alert_list : list A) (calls : nat) :
  Forall (fun r => ok r = true) before ->
  ok bad = false ->
  prometheus_log eqb (before ++ bad :: later) alert_list calls
  = (Died (AssertionError ("Request " +:+ url bad +:+ " failed")),
     snd (fst (prometheus_log eqb before alert_list calls)),
     S (calls + List.length before)).
Proof.
  intros Hall Hbad. revert alert_list calls.
  induction Hall as [ | r rest Hr _ IH]; intros alert_list calls; simpl.
  - rewrite Hbad, Nat.add_0_r. reflexivity.
  - rewrite Hr, IH, Nat.add_succ_r. reflexivity.
Qed.

End WatcherList.

(** X1: whatever list [prometheus_log] is started on and whatever the
    API answers, the list it leaves begins with the list it was given,
    unchanged and in the same order; everything after that comes from
    the alerts it read.  The watcher only appends. *)
Theorem watcher_only_appends (answers : list (response value))
    (alert_list : list value) (calls : nat) :
  exists added,
    snd (fst (prometheus_log value_eqb answers alert_list calls))
    = alert_list ++ added
    /\ (forall a, a ∈ added -> a ∈ polled answers).
Proof. apply prometheus_log_extends. Qed.

(** X2: a list without duplicates stays without duplicates, whatever
    the API answers. *)
Theorem watcher_keeps_list_free_of_duplicates (answers : list (response value))
    (alert_list : list value) (calls : nat) :
  NoDup alert_list ->
  NoDup (snd (fst (prometheus_log value_eqb answers alert_list calls))).
Proof. apply prometheus_log_NoDup, value_eqb_refl. Qed.

(** X3: the first answer that is not a success ends the watcher with
    the assertion error that names the url of that request; the answers
    after it are never asked for, the list is as the answers before it
    left it, and one call was made per answer up to and including the
    failed one. *)
Theorem watcher_ends_at_first_failure (before later : list (response value))
    (bad : response value) (alert_list : list value) (calls : nat) :
  Forall (fun r => ok r = true) before ->
  ok bad = false ->
  prometheus_log value_eqb (before ++ bad :: later) alert_list calls
  = (Died (AssertionError ("Request " +:+ url bad +:+ " failed")),
     snd (fst (prometheus_log value_eqb before alert_list calls)),
     S (calls + List.length before)).
Proof. apply prometheus_log_first_failure. Qed.

(** X4: when every answer is a success the watcher returns normally,
    having made exactly one call per answer. *)
Theorem watcher_returns_when_all_answers_succeed
    (answers : list (response value)) (alert_list : list value) (calls : nat) :
  Forall (fun r => ok r = true) answers ->
  fst (fst (prometheus_log value_eqb answers alert_list calls)) = Returned
  /\ snd (prometheus_log value_eqb answers alert_list calls)
     = (calls + List.length answers)%nat.
Proof. apply prometheus_log_all_ok. Qed.

(** X5: an answer that repeats the one before it adds nothing: polling
    the same alerts twice in a row leaves the same list as polling them
    once. *)
Theorem repeated_answer_adds_nothing (r : response value)
    (later : list (response value)) (alert_list : list value) (calls : nat) :
  ok r = true ->
  snd (fst (prometheus_log value_eqb (r :: r :: later) alert_list calls))
  = snd (fst (prometheus_log value_eqb (r :: later) alert_list calls)).
Proof.
  intros Hr. simpl. rewrite Hr.
  rewrite (append_new_known value_eqb (alerts r)
             (append_new value_eqb (alerts r) alert_list)).
  - apply prometheus_log_list_any_calls.
  - intros a Ha. apply (append_new_contains value_eqb value_eqb_refl).
    right. exact Ha.
Qed.

(** ** More on [measure_operation] *)

Section MoreMeasurement.
Context `{Json}.

(** X6: when the operation raises, [measure_operation] raises the same
    exception at once, in the world the operation left: the watcher has
    been started but is neither told to stop nor joined, no call of it
    is accounted for, and the result file is not touched. *)
Theorem failed_operation_leaves_watcher_running env operation result_file
    minimal_time metadata measure_after w e w1 :
  cached w result_file = false ->
  operation (started env w) = (Raise e, w1) ->
  measure_operation env operation result_file minimal_time metadata
    measure_after w = (Raise e, w1)
  /\ trace (started env w) = trace w ++ [ThreadStarted]
  /\ fs (started env w) = fs w.
Proof.
  intros Hmiss Hop.
  split; [apply measure_operation_op_raises; assumption | ].
  split; reflexivity.
Qed.

(** X7: a record that a run has measured and saved is what every later
    call returns, provided the file it wrote is readable and json reads
    back what it wrote: the later call changes nothing and does not look
    at its operation. *)
Theorem saved_record_is_replayed env operation result_file minimal_time
    metadata measure_after w r w' :
  cached w result_file = false ->
  measure_operation env operation result_file minimal_time metadata
    measure_after w = (Ok r, w') ->
  cached w' result_file = true ->
  json_load (fst (json_dump r)) = Some r ->
  forall env' operation' minimal_time' metadata' measure_after',
    measure_operation env' operation' result_file minimal_time' metadata'
      measure_after' w' = (Ok r, w').
Proof.
  intros Hmiss Hrun Hcached Hround.
  destruct (operation (started env w)) as [[result | e] w1] eqn:Hop.
  2: { rewrite (measure_operation_op_raises _ _ _ _ _ _ _ _ _ Hmiss Hop)
         in Hrun. discriminate. }
  rewrite (measure_operation_miss _ _ _ _ _ _ _ _ _ Hmiss Hop) in Hrun.
  cbv zeta in Hrun. apply save_ok_inv in Hrun as (Hr & _ & _ & Hw').
  assert (Hfile : exists f, fs w' !! result_file = Some f
                            /\ content f = fst (json_dump r)
                            /\ readable f = true).
  { unfold cached in Hcached.
    destruct (fs w' !! result_file) as [f | ] eqn:Hf; [ | discriminate].
    exists f. split; [reflexivity | ]. split; [ | exact Hcached].
    rewrite Hw' in Hf. unfold saved in Hf. simpl in Hf.
    rewrite lookup_insert_eq in Hf. injection Hf as <-. simpl.
    rewrite Hr. reflexivity. }
  destruct Hfile as (f & Hf & Hcontent & Hreadable).
  intros. rewrite (measure_operation_hit _ _ _ _ _ _ _ _ Hf Hreadable).
  unfold loaded. rewrite Hcontent, Hround. reflexivity.
Qed.

(** X8: a result file that cannot be read is never reused: if the
    operation returns and the file is still unreadable when the record
    is to be saved, it is unreadable after the call as well, whether the
    save went through or not, so that the next call measures again. *)
Theorem unreadable_result_file_is_never_reused env operation result_file
    minimal_time metadata measure_after w result w1 f1 :
  cached w result_file = false ->
  operation (started env w) = (Ok result, w1) ->
  fs w1 !! result_file = Some f1 ->
  readable f1 = false ->
  cached (snd (measure_operation env operation result_file minimal_time
                 metadata measure_after w)) result_file = false.
Proof.
  intros Hmiss Hop Hf1 Hr1.
  rewrite (measure_operation_miss _ _ _ _ _ _ _ _ _ Hmiss Hop). cbv zeta.
  match goal with
  | |- context [bind _ _ (joined env ?t0 ?wx)] => set (wj := joined env t0 wx)
  end.
  assert (Hfj : fs wj !! result_file = Some f1).
  { subst wj. unfold joined. simpl. rewrite fs_extended. exact Hf1. }
  clearbody wj.
  destruct (writable f1) eqn:Hw1.
  - rewrite save_permitted by (unfold permitted; rewrite Hfj; exact Hw1).
    unfold cached, saved. simpl. rewrite lookup_insert_eq, Hfj. exact Hr1.
  - rewrite (save_denied _ _ _ _ Hfj Hw1).
    unfold cached. simpl. rewrite Hfj. exact Hr1.
Qed.



End MoreMeasurement.

(** ** More on the fixtures *)

Lemma exec_oc_cmd_eq (c : oc_cmd) (w : world) :
  exec_oc_cmd c w = (Ok tt, executed c w).
Proof. destruct c. reflexivity. Qed.

Lemma stop_osd_eq env (osd_to_stop : string) (w : world) :
  stop_osd env osd_to_stop w
  = (Ok (VStr osd_to_stop),
     slept env (seconds (60 * 11)) (executed (Scale 0 osd_to_stop) w)).
Proof.
  unfold stop_osd. erewrite bind_ok by apply exec_oc_cmd_eq.
  erewrite bind_ok by (apply time_sleep_eq; unfold seconds, ticks_per_second; lia).
  reflexivity.
Qed.

Lemma stop_mgr_world env (mgr : string) (w : world) :
  snd (stop_mgr env mgr w)
  = slept env (seconds (60 * 6)) (executed (Scale 0 mgr) w).
Proof.
  unfold stop_mgr. erewrite bind_ok by apply exec_oc_cmd_eq.
  erewrite bind_ok by (apply time_sleep_eq; unfold seconds, ticks_per_second; lia).
  unfold oc_get.
  destruct (filter _ (cluster _)); reflexivity.
Qed.

Lemma executed_scale_replicas (n : Z) (name : string) (w : world) (d : deployment) :
  d ∈ cluster (executed (Scale n name) w) ->
  dep_name d = name ->
  replicas d = n.
Proof.
  simpl. intros Hin Hname.
  apply list_elem_of_fmap in Hin as (d0 & -> & _).
  unfold scale in *. destruct (decide (dep_name d0 = name)); [reflexivity | ].
  contradiction.
Qed.

(** The commands in the trace of a measurement whose operation has run
    from the world where the watcher was started to [w1]. *)
Lemma commands_after_measurement env (minimal_time : option Z)
    (passed_time t t0 stop_time : Z) (result_file text : string) (w1 : world) :
  commands (trace (saved result_file text
                     (joined env t0
                        (set_now stop_time
                           (extended env minimal_time passed_time
                              (set_now t w1))))))
  = commands (trace w1).
Proof.
  unfold saved, joined. simpl. rewrite !commands_app. simpl.
  rewrite !app_nil_r, commands_extended. reflexivity.
Qed.

Lemma trace_after_measurement env (passed_time t t0 stop_time : Z)
    (result_file text : string) (w1 : world) :
  trace (saved result_file text
           (joined env t0
              (set_now stop_time
                 (extended env None passed_time (set_now t w1)))))
  = trace w1 ++ [ThreadJoined; OpenedForWriting result_file;
                 Wrote result_file].
Proof. unfold saved, joined. simpl. rewrite <- !app_assoc. reflexivity. Qed.

Section MoreScenarios.
Context `{Json}.

(** X11: the storage-daemon scenario on a run that measures: the
    deployment stopped is the last of the listing and no other; it is
    scaled to 0, 660 seconds are waited, the record has its name as
    result, and after the measurement it is scaled back to 1. *)
Theorem osd_stop_scenario env measurement_dir w osds osd_to_stop r w1 :
  let test_file := os_path_join measurement_dir "measure_stop_ceph_osd.json" in
  listed OSD_APP_LABEL w = osds ++ [osd_to_stop] ->
  cached w test_file = false ->
  measure_operation env (stop_osd env osd_to_stop) test_file None VNone
    false w = (Ok r, w1) ->
  let w2 := executed (Scale 1 osd_to_stop) w1 in
  measure_stop_ceph_osd env measurement_dir w = (Ok r, w2)
  /\ commands (trace w2)
     = commands (trace w) ++ [Scale 0 osd_to_stop; Scale 1 osd_to_stop]
  /\ field "result" r = Some (VStr osd_to_stop)
  /\ Slept (seconds 660) ∈ trace w1
  /\ (forall d, d ∈ cluster w2 -> dep_name d = osd_to_stop -> replicas d = 1).
Proof.
  intros test_file Hlisted Hmiss Hrun w2.
  split.
  { unfold measure_stop_ceph_osd. erewrite bind_ok by reflexivity. cbv zeta.
    fold (listed OSD_APP_LABEL w). rewrite Hlisted.
    unfold last_item. rewrite last_snoc.
    erewrite bind_ok by reflexivity.
    fold test_file. erewrite bind_ok by exact Hrun.
    erewrite bind_ok by apply exec_oc_cmd_eq. reflexivity. }
  pose proof Hrun as Hrun'.
  rewrite (measure_operation_miss _ _ _ _ _ _ _ _ _ Hmiss
             (stop_osd_eq env osd_to_stop (started env w))) in Hrun'.
  cbv zeta in Hrun'. apply save_ok_inv in Hrun' as (Hr & _ & _ & Hw1).
  split.
  { subst w2. simpl. rewrite commands_app. simpl.
    rewrite Hw1, commands_after_measurement. simpl.
    rewrite !commands_app. simpl. rewrite !app_nil_r, <- app_assoc.
    reflexivity. }
  split; [rewrite Hr; apply field_result | ].
  split.
  { rewrite Hw1, trace_after_measurement. simpl.
    apply elem_of_app. left. apply elem_of_app. right. left. }
  intros d. apply executed_scale_replicas.
Qed.

(** X12: the manager scenario on a run that measures: only the first
    manager of the listing is touched; it is scaled to 0, 360 seconds are
    waited, and after the measurement it is scaled back to 1. *)
Theorem mgr_stop_scenario env measurement_dir w mgr others r w1 :
  let test_file := os_path_join measurement_dir "measure_stop_ceph_mgr.json" in
  listed MGR_APP_LABEL w = mgr :: others ->
  cached w test_file = false ->
  measure_operation env (stop_mgr env mgr) test_file None VNone false w
  = (Ok r, w1) ->
  let w2 := executed (Scale 1 mgr) w1 in
  measure_stop_ceph_mgr env measurement_dir w = (Ok r, w2)
  /\ commands (trace w2) = commands (trace w) ++ [Scale 0 mgr; Scale 1 mgr]
  /\ Slept (seconds 360) ∈ trace w1
  /\ (forall d, d ∈ cluster w2 -> dep_name d = mgr -> replicas d = 1).
Proof.
  intros test_file Hlisted Hmiss Hrun w2.
  split.
  { unfold measure_stop_ceph_mgr. erewrite bind_ok by reflexivity.
    unfold listed in Hlisted.
    destruct (filter (fun d => dep_label d = MGR_APP_LABEL) (cluster w))
      as [ | d ds]; [discriminate | ].
    injection Hlisted as Hd _.
    erewrite bind_ok by reflexivity. cbv zeta. rewrite Hd.
    fold test_file. erewrite bind_ok by exact Hrun.
    erewrite bind_ok by apply exec_oc_cmd_eq. reflexivity. }
  destruct (stop_mgr env mgr (started env w)) as [[result | e] wx] eqn:Hop.
  2: { rewrite (measure_operation_op_raises _ _ _ _ _ _ _ _ _ Hmiss Hop)
         in Hrun. discriminate. }
  assert (Hwx : wx = slept env (seconds (60 * 6))
                       (executed (Scale 0 mgr) (started env w))).
  { rewrite <- stop_mgr_world, Hop. reflexivity. }
  rewrite (measure_operation_miss _ _ _ _ _ _ _ _ _ Hmiss Hop) in Hrun.
  cbv zeta in Hrun. apply save_ok_inv in Hrun as (_ & _ & _ & Hw1).
  split.
  { subst w2. simpl. rewrite commands_app. simpl.
    rewrite Hw1, commands_after_measurement, Hwx. simpl.
    rewrite !commands_app. simpl. rewrite !app_nil_r, <- app_assoc.
    reflexivity. }
  split.
  { rewrite Hw1, trace_after_measurement, Hwx. simpl.
    apply elem_of_app. left. apply elem_of_app. right. left. }
  intros d. apply executed_scale_replicas.
Qed.

(** X13: without a manager deployment the manager fixture raises
    IndexError before anything is measured or commanded, and so does the
    storage-daemon fixture without a storage-daemon deployment. *)
Theorem mgr_and_osd_fixtures_need_a_deployment env measurement_dir w :
  (listed MGR_APP_LABEL w = [] ->
   measure_stop_ceph_mgr env measurement_dir w = (Raise IndexError, w))
  /\ (listed OSD_APP_LABEL w = [] ->
      measure_stop_ceph_osd env measurement_dir w = (Raise IndexError, w)).
Proof.
  split; intros Hnone.
  - unfold measure_stop_ceph_mgr. erewrite bind_ok by reflexivity.
    unfold listed in Hnone. apply map_eq_nil in Hnone. rewrite Hnone.
    reflexivity.
  - unfold measure_stop_ceph_osd. erewrite bind_ok by reflexivity. cbv zeta.
    fold (listed OSD_APP_LABEL w). rewrite Hnone. reflexivity.
Qed.

(** X14: with two monitors or fewer the monitor fixture stops nothing:
    the measurement gives no command to the cluster, waits its 720
    seconds, returns an empty list as result, and the fixture returns the
    record without looking further. *)
Theorem mon_stop_with_two_or_fewer_stops_nothing env measurement_dir w r w1 :
  let test_file := os_path_join measurement_dir "measure_stop_ceph_mon.json" in
  (List.length (listed MON_APP_LABEL w) <= 2)%nat ->
  cached w test_file = false ->
  measure_operation env (stop_mon env []) test_file None VNone false w
  = (Ok r, w1) ->
  measure_stop_ceph_mon env measurement_dir w = (Ok r, w1)
  /\ commands (trace w1) = commands (trace w)
  /\ Slept (seconds 720) ∈ trace w1
  /\ field "result" r = Some (VList []).
Proof.
  intros test_file Hn Hmiss Hrun.
  assert (Hnone : drop (split_index (listed MON_APP_LABEL w))
                    (listed MON_APP_LABEL w) = []).
  { apply drop_ge. unfold split_index.
    destruct (3 <? List.length (listed MON_APP_LABEL w))%nat eqn:E.
    - apply Nat.ltb_lt in E. lia.
    - exact Hn. }
  split.
  { unfold measure_stop_ceph_mon. erewrite bind_ok by reflexivity. cbv zeta.
    fold (listed MON_APP_LABEL w). rewrite Hnone. fold test_file.
    erewrite bind_ok by exact Hrun.
    erewrite bind_ok by reflexivity. reflexivity. }
  pose proof Hrun as Hrun'.
  rewrite (measure_operation_miss _ _ _ _ _ _ _ _ _ Hmiss
             (stop_mon_eq env [] (started env w))) in Hrun'.
  cbv zeta in Hrun'. apply save_ok_inv in Hrun' as (Hr & _ & _ & Hw1).
  split.
  { rewrite Hw1, commands_after_measurement. simpl.
    rewrite !commands_app. simpl. rewrite !app_nil_r. reflexivity. }
  split.
  { rewrite Hw1, trace_after_measurement. simpl.
    apply elem_of_app. left. apply elem_of_app. right. left. }
  rewrite Hr. apply field_result.
Qed.

(** X16: with a readable result file that json can decode and three
    monitors or more, the monitor fixture never returns the record: the
    measurement is not run, the monitors it chose are still listed, so it
    scales each of them to 1 and raises the assertion error. *)
Theorem mon_stop_replay_always_fails env measurement_dir w f r :
  let test_file := os_path_join measurement_dir "measure_stop_ceph_mon.json" in
  let mons := listed MON_APP_LABEL w in
  let mons_to_stop := drop (split_index mons) mons in
  fs w !! test_file = Some f ->
  readable f = true ->
  json_load (content f) = Some r ->
  (3 <= List.length mons)%nat ->
  measure_stop_ceph_mon env measurement_dir w
  = (Raise (AssertionError
              ("Downscaled monitors " +:+ repr_list mons_to_stop
               +:+ " were not replaced")),
     scaled_each 1 mons_to_stop w)
  /\ commands (trace (scaled_each 1 mons_to_stop w))
     = commands (trace w) ++ map (Scale 1) mons_to_stop.
Proof.
  intros test_file mons mons_to_stop Hf Hr Hload Hn.
  split; [ | apply commands_scaled_each].
  assert (Hsome : exists mon, mon ∈ mons_to_stop /\ mon ∈ mons).
  { assert (Hlen : (0 < List.length mons_to_stop)%nat).
    { subst mons_to_stop. rewrite length_drop. unfold split_index.
      destruct (3 <? List.length mons)%nat eqn:E.
      - apply Nat.ltb_lt in E.
        pose proof (Nat.div_lt (List.length mons) 2). lia.
      - lia. }
    destruct mons_to_stop as [ | mon rest] eqn:E; [simpl in Hlen; lia | ].
    exists mon. split; [left | ].
    apply (subseteq_drop (split_index mons) mons).
    fold mons_to_stop. rewrite E. left. }
  destruct Hsome as (mon & Hstop & Hstill).
  unfold measure_stop_ceph_mon. erewrite bind_ok by reflexivity. cbv zeta.
  fold (listed MON_APP_LABEL w). fold mons. fold mons_to_stop. fold test_file.
  erewrite bind_ok.
  2: { rewrite (measure_operation_hit _ _ _ _ _ _ _ _ Hf Hr).
       unfold loaded. rewrite Hload. reflexivity. }
  erewrite bind_ok by reflexivity. cbv zeta.
  fold (listed MON_APP_LABEL w). fold mons.
  destruct (forallb (fun mon0 => negb (name_in mon0 mons)) mons_to_stop) eqn:E.
  - destruct (proj1 (old_mons_deleted_spec _ _) E mon Hstop Hstill).
  - simpl. erewrite bind_ok by apply for_each_scale. reflexivity.
Qed.

(** X17: with a readable result file that json can decode, the manager
    fixture returns the stored record and the only command it gives is
    the scaling of the first manager to 1; the storage-daemon fixture
    does the same with the last storage daemon.  Neither stops
    anything. *)
Theorem mgr_and_osd_replay_only_scale_up env measurement_dir w f r :
  readable f = true ->
  json_load (content f) = Some r ->
  (forall mgr others,
     fs w !! os_path_join measurement_dir "measure_stop_ceph_mgr.json" = Some f ->
     listed MGR_APP_LABEL w = mgr :: others ->
     measure_stop_ceph_mgr env measurement_dir w
     = (Ok r, executed (Scale 1 mgr) w))
  /\ (forall osds osd,
        fs w !! os_path_join measurement_dir "measure_stop_ceph_osd.json" = Some f ->
        listed OSD_APP_LABEL w = osds ++ [osd] ->
        measure_stop_ceph_osd env measurement_dir w
        = (Ok r, executed (Scale 1 osd) w)).
Proof.
  intros Hr Hload.
  assert (Hhit : forall result_file operation,
    fs w !! result_file = Some f ->
    measure_operation env operation result_file None VNone false w = (Ok r, w)).
  { intros result_file operation Hf.
    rewrite (measure_operation_hit _ _ _ _ _ _ _ _ Hf Hr).
    unfold loaded. rewrite Hload. reflexivity. }
  split.
  - intros mgr others Hf Hlisted.
    unfold measure_stop_ceph_mgr. erewrite bind_ok by reflexivity.
    unfold listed in Hlisted.
    destruct (filter (fun d => dep_label d = MGR_APP_LABEL) (cluster w))
      as [ | d ds]; [discriminate | ].
    injection Hlisted as Hd _.
    erewrite bind_ok by reflexivity. cbv zeta. rewrite Hd.
    erewrite bind_ok by (apply Hhit, Hf).
    erewrite bind_ok by apply exec_oc_cmd_eq. reflexivity.
  - intros osds osd Hf Hlisted.
    unfold measure_stop_ceph_osd. erewrite bind_ok by reflexivity. cbv zeta.
    fold (listed OSD_APP_LABEL w). rewrite Hlisted.
    unfold last_item. rewrite last_snoc.
    erewrite bind_ok by reflexivity.
    erewrite bind_ok by (apply Hhit, Hf).
    erewrite bind_ok by apply exec_oc_cmd_eq. reflexivity.
Qed.

End MoreScenarios.

(** X15: how the monitor fixture splits the listing: the monitors left
    running are a prefix and the monitors to stop the rest; with two
    monitors or more at least two are left; nothing is stopped with two
    or fewer, something with three or more; and the stopped outnumber
    those left by one at most. *)
Theorem mon_selection_sizes (mons : list string) :
  let left := take (split_index mons) mons in
  let stopped := drop (split_index mons) mons in
  mons = left ++ stopped
  /\ ((2 <= List.length mons)%nat -> (2 <= List.length left)%nat)
  /\ ((List.length mons <= 2)%nat -> stopped = [])
  /\ ((3 <= List.length mons)%nat -> stopped <> [])
  /\ (List.length stopped <= List.length left + 1)%nat.
Proof.
  intros left stopped.
  assert (Hk : (split_index mons = 2
                /\ List.length mons <= 3
                \/ split_index mons = List.length mons / 2
                   /\ 3 < List.length mons)%nat).
  { unfold split_index.
    destruct (3 <? List.length mons)%nat eqn:E.
    - apply Nat.ltb_lt in E. right. split; [reflexivity | exact E].
    - apply Nat.ltb_ge in E. left. split; [reflexivity | exact E]. }
  assert (Hhalf : (2 * (List.length mons / 2) <= List.length mons
                   /\ List.length mons < 2 * (List.length mons / 2) + 2)%nat).
  { pose proof (Nat.div_mod_eq (List.length mons) 2) as Hdm.
    pose proof (Nat.mod_upper_bound (List.length mons) 2). lia. }
  assert (Hleft : List.length left
                  = Nat.min (split_index mons) (List.length mons)).
  { subst left. apply length_take. }
  assert (Hstopped : List.length stopped
                     = (List.length mons - split_index mons)%nat).
  { subst stopped. apply length_drop. }
  split; [subst left stopped; symmetry; apply take_drop | ].
  split; [intros Hn; lia | ].
  split.
  { intros Hn. apply nil_length_inv. lia. }
  split.
  { intros Hn Hnil. rewrite Hnil in Hstopped. simpl in Hstopped. lia. }
  lia.
Qed.

(** ** Paths *)

Lemma append_cons (c : ascii) (s t : string) :
  String c s +:+ t = String c (s +:+ t).
Proof. reflexivity. Qed.

Lemma append_nil (t : string) : EmptyString +:+ t = t.
Proof. reflexivity. Qed.

Lemma append_assoc (s a b : string) : (s +:+ a) +:+ b = s +:+ (a +:+ b).
Proof.
  induction s as [ | c s IH]; [reflexivity | ].
  rewrite !append_cons, IH. reflexivity.
Qed.

Lemma append_nonempty (s : string) (c : ascii) (t : string) :
  exists c' t', s +:+ String c t = String c' t'.
Proof. destruct s; [rewrite append_nil | rewrite append_cons]; eauto. Qed.

Lemma head_of_no_slash (name : string) :
  no_slash name = true -> head_of name = EmptyString.
Proof.
  induction name as [ | c name IH]; simpl; [reflexivity | ].
  intros Hc. apply andb_true_iff in Hc as [Hc Hname].
  rewrite (IH Hname). apply negb_true_iff in Hc. rewrite Hc. reflexivity.
Qed.

Lemma head_of_before_name (s name : string) :
  no_slash name = true -> head_of (s +:+ String "/" name) = s +:+ "/".
Proof.
  intros Hname. induction s as [ | c s IH].
  - rewrite !append_nil. simpl.
    rewrite (head_of_no_slash name Hname). reflexivity.
  - rewrite !append_cons. simpl head_of. rewrite IH.
    destruct (append_nonempty s "/" EmptyString) as (c' & t' & E).
    rewrite E. reflexivity.
Qed.

Lemma ends_with_slash_inv (s : string) :
  ends_with_slash s = true -> exists s0, s = s0 +:+ "/".
Proof.
  induction s as [ | c s IH]; simpl; [discriminate | ].
  destruct s as [ | c' s'].
  - intros Hc. apply bool_decide_eq_true in Hc. subst c.
    exists EmptyString. reflexivity.
  - intros Hs. destruct (IH Hs) as (s0 & E). exists (String c s0).
    rewrite append_cons, <- E. reflexivity.
Qed.

Lemma ends_with_slash_append (s : string) (c : ascii) (t : string) :
  ends_with_slash (s +:+ String c t) = ends_with_slash (String c t).
Proof.
  induction s as [ | c0 s IH]; [reflexivity | ].
  rewrite append_cons.
  destruct (append_nonempty s c t) as (c' & t' & E).
  transitivity (ends_with_slash (s +:+ String c t)); [ | exact IH].
  rewrite E. reflexivity.
Qed.

Lemma rstrip_cons (c : ascii) (s : string) :
  rstrip_slashes (String c s)
  = match rstrip_slashes s with
    | EmptyString =>
        if Ascii.eqb c "/" then EmptyString else String c EmptyString
    | String _ _ as r => String c r
    end.
Proof. reflexivity. Qed.

Lemma all_slashes_cons (c : ascii) (s : string) :
  all_slashes (String c s) = Ascii.eqb c "/" && all_slashes s.
Proof. reflexivity. Qed.

Lemma rstrip_after_slash (base : string) :
  base <> EmptyString -> ends_with_slash base = false ->
  rstrip_slashes (base +:+ "/") = base.
Proof.
  induction base as [ | c rest IH]; [congruence | ]. intros _ Hend.
  rewrite append_cons.
  destruct rest as [ | c' rest'].
  - rewrite append_nil. simpl in *. apply bool_decide_eq_false in Hend.
    destruct (Ascii.eqb_spec c "/"); [contradiction | reflexivity].
  - rewrite rstrip_cons.
    change (ends_with_slash (String c (String c' rest')))
      with (ends_with_slash (String c' rest')) in Hend.
    rewrite (IH ltac:(discriminate) Hend). reflexivity.
Qed.

Lemma not_all_slashes_after_slash (base : string) :
  base <> EmptyString -> ends_with_slash base = false ->
  all_slashes (base +:+ "/") = false.
Proof.
  induction base as [ | c rest IH]; [congruence | ]. intros _ Hend.
  rewrite append_cons.
  destruct rest as [ | c' rest'].
  - rewrite append_nil. simpl in *. apply bool_decide_eq_false in Hend.
    destruct (Ascii.eqb_spec c "/"); [contradiction | reflexivity].
  - rewrite all_slashes_cons.
    change (ends_with_slash (String c (String c' rest')))
      with (ends_with_slash (String c' rest')) in Hend.
    rewrite (IH ltac:(discriminate) Hend). apply andb_false_r.
Qed.

(** What [os.path.join] has put together, [os.path.dirname] takes apart
    again, for a directory without a slash at its end (or made of
    slashes only, as the root is) and a name without a slash. *)
Lemma dirname_of_join (base name : string) :
  ends_with_slash base = false \/ all_slashes base = true ->
  no_slash name = true ->
  os_path_dirname (os_path_join base name) = base.
Proof.
  intros Hbase Hname. unfold os_path_join, os_path_dirname.
  destruct base as [ | c rest] eqn:Eb.
  - rewrite (head_of_no_slash name Hname). reflexivity.
  - rewrite <- Eb in *.
    assert (Hne : base <> EmptyString) by (subst; discriminate).
    destruct (ends_with_slash base) eqn:Hend.
    + destruct Hbase as [Hbase | Hall]; [discriminate | ].
      destruct (ends_with_slash_inv base Hend) as (s0 & Es0).
      assert (Hhead : head_of (base +:+ name) = base).
      { rewrite Es0, append_assoc. apply head_of_before_name, Hname. }
      rewrite Hhead. cbv zeta. rewrite Eb at 1. rewrite Hall.
      reflexivity.
    + change ("/" +:+ name) with (String "/" name).
      rewrite (head_of_before_name base name Hname). cbv zeta.
      destruct (append_nonempty base "/" EmptyString) as (c' & t' & E).
      rewrite E at 1.
      rewrite (not_all_slashes_after_slash base Hne Hend).
      apply rstrip_after_slash; assumption.
Qed.

Lemma join_keeps_end (base : string) (c : ascii) (t : string) :
  ends_with_slash (os_path_join base (String c t)) = ends_with_slash (String c t).
Proof.
  unfold os_path_join. destruct base as [ | c0 rest]; [reflexivity | ].
  destruct (ends_with_slash (String c0 rest)).
  - apply ends_with_slash_append.
  - change ("/" +:+ String c t) with (String "/" (String c t)).
    rewrite (ends_with_slash_append (String c0 rest) "/" (String c t)).
    reflexivity.
Qed.

Lemma join_text (base name : string) :
  base <> EmptyString -> ends_with_slash base = false ->
  os_path_join base name = base +:+ String "/" name.
Proof.
  intros Hne Hend. unfold os_path_join.
  destruct base; [congruence | ]. rewrite Hend. reflexivity.
Qed.

Lemma join_text_after_slash (base name : string) :
  ends_with_slash base = true -> os_path_join base name = base +:+ name.
Proof.
  intros Hend. unfold os_path_join.
  destruct base; [discriminate | ]. rewrite Hend. reflexivity.
Qed.

Lemma join_nonempty (base : string) (c : ascii) (t : string) :
  os_path_join base (String c t) <> EmptyString.
Proof.
  unfold os_path_join. destruct base as [ | c0 rest]; [discriminate | ].
  destruct (ends_with_slash (String c0 rest)); rewrite append_cons;
    discriminate.
Qed.

Lemma append_not_empty (s : string) (c : ascii) (t : string) :
  s +:+ String c t <> EmptyString.
Proof.
  destruct (append_nonempty s c t) as (c' & t' & E). rewrite E. discriminate.
Qed.

(** X18: [TOP_DIR] is the directory that holds the package: for the
    module file [<top>/ocs_ci/ocs/constants.py], wherever [top] is, the
    three [dirname] give [top] back, and the template paths built from it
    lie below it; the slash that ends the component [openshift-infra/]
    is not doubled. *)
Theorem TOP_DIR_is_the_directory_of_the_package (top : string) :
  ends_with_slash top = false \/ all_slashes top = true ->
  let file := os_path_join_all top ["ocs_ci"; "ocs"; "constants.py"] in
  TOP_DIR file = top
  /\ TEMPLATE_DEPLOYMENT_LOGGING (TOP_DIR file)
     = os_path_join top "ocs_ci"
       +:+ "/templates/openshift-infra/logging-deployment"
  /\ TEMPLATE_CONFIGURE_PVC_MONITORING_POD (TOP_DIR file)
     = os_path_join top "ocs_ci" +:+ "/templates/openshift-infra/monitoring/".
Proof.
  intros Htop file.
  assert (Htopdir : TOP_DIR file = top).
  { subst file. unfold TOP_DIR, os_path_join_all. simpl fold_left.
    rewrite dirname_of_join by (first [left; apply join_keeps_end | reflexivity]).
    rewrite dirname_of_join by (first [left; apply join_keeps_end | reflexivity]).
    apply dirname_of_join; [exact Htop | reflexivity]. }
  rewrite Htopdir. split; [reflexivity | ].
  set (pkg := os_path_join top "ocs_ci").
  assert (Hpkg : pkg <> EmptyString) by apply join_nonempty.
  assert (Hend : ends_with_slash pkg = false) by apply join_keeps_end.
  assert (Htemplates : TEMPLATE_DIR top = pkg +:+ "/templates").
  { unfold TEMPLATE_DIR, os_path_join_all. simpl fold_left. fold pkg.
    apply join_text; assumption. }
  assert (Hinfra : TEMPLATE_OPENSHIFT_INFRA_DIR top
                   = pkg +:+ "/templates/openshift-infra/").
  { unfold TEMPLATE_OPENSHIFT_INFRA_DIR. rewrite Htemplates.
    rewrite join_text.
    - rewrite append_assoc. reflexivity.
    - apply append_not_empty.
    - apply ends_with_slash_append. }
  assert (Hslash : ends_with_slash (TEMPLATE_OPENSHIFT_INFRA_DIR top) = true).
  { rewrite Hinfra. apply ends_with_slash_append. }
  split.
  - unfold TEMPLATE_DEPLOYMENT_LOGGING.
    rewrite (join_text_after_slash _ _ Hslash), Hinfra, append_assoc.
    reflexivity.
  - unfold TEMPLATE_CONFIGURE_PVC_MONITORING_POD.
    rewrite (join_text_after_slash _ _ Hslash), Hinfra, append_assoc.
    reflexivity.
Qed.

(** ** The measurement directory *)

Section MeasurementDirFacts.
Context {store : Type}.
Context (os_path_exists : store -> string -> bool).
Context (os_mkdir : string -> store -> outcome unit * store).

Lemma measurement_dir_unfold ENV_DATA tmp_path st :
  measurement_dir os_path_exists os_mkdir ENV_DATA tmp_path st
  = let d := measurement_dir_path ENV_DATA tmp_path in
    if os_path_exists st d then (Ok d, st)
    else match os_mkdir d st with
         | (Ok _, st') => (Ok d, st')
         | (Raise e, st') => (Raise e, st')
         end.
Proof.
  unfold measurement_dir, measurement_dir_path. cbv zeta.
  destruct (os_path_exists st _); reflexivity.
Qed.

Lemma measurement_dir_returns ENV_DATA tmp_path st d :
  fst (measurement_dir os_path_exists os_mkdir ENV_DATA tmp_path st) = Ok d ->
  d = measurement_dir_path ENV_DATA tmp_path.
Proof.
  rewrite measurement_dir_unfold. cbv zeta.
  destruct (os_path_exists st _); simpl; [congruence | ].
  destruct (os_mkdir _ st) as [[[] | e] st']; simpl; congruence.
Qed.

(** X19: a directory named in the configuration is the one returned,
    whatever the temporary path of the test is. *)
Theorem measurement_dir_prefers_the_configuration ENV_DATA configured
    tmp_path tmp_path' st :
  ENV_DATA !! "measurement_dir" = Some configured ->
  configured <> EmptyString ->
  measurement_dir os_path_exists os_mkdir ENV_DATA tmp_path st
  = measurement_dir os_path_exists os_mkdir ENV_DATA tmp_path' st
  /\ (forall d,
        fst (measurement_dir os_path_exists os_mkdir ENV_DATA tmp_path st)
        = Ok d ->
        d = configured).
Proof.
  intros Hconf Hne.
  assert (Hpath : forall tmp, measurement_dir_path ENV_DATA tmp = configured).
  { intros tmp. unfold measurement_dir_path. rewrite Hconf.
    destruct configured; [congruence | reflexivity]. }
  split.
  - rewrite !measurement_dir_unfold, !Hpath. reflexivity.
  - intros d Hd. apply measurement_dir_returns in Hd. rewrite Hd. apply Hpath.
Qed.

(** X20: without a directory in the configuration (or with an empty
    one), the tests whose temporary paths lie in the same directory get
    the same measurement directory, [measurement_results] next to their
    temporary paths. *)
Theorem measurement_dir_is_shared_by_the_session ENV_DATA base name name' st :
  ENV_DATA !! "measurement_dir" = None
  \/ ENV_DATA !! "measurement_dir" = Some EmptyString ->
  ends_with_slash base = false \/ all_slashes base = true ->
  no_slash name = true ->
  no_slash name' = true ->
  measurement_dir os_path_exists os_mkdir ENV_DATA (os_path_join base name) st
  = measurement_dir os_path_exists os_mkdir ENV_DATA (os_path_join base name') st
  /\ (forall d,
        fst (measurement_dir os_path_exists os_mkdir ENV_DATA
               (os_path_join base name) st) = Ok d ->
        d = os_path_join base "measurement_results").
Proof.
  intros Hconf Hbase Hname Hname'.
  assert (Hpath : forall n, no_slash n = true ->
            measurement_dir_path ENV_DATA (os_path_join base n)
            = os_path_join base "measurement_results").
  { intros n Hn. unfold measurement_dir_path.
    rewrite (dirname_of_join base n Hbase Hn).
    destruct Hconf as [-> | ->]; reflexivity. }
  split.
  - rewrite !measurement_dir_unfold, !Hpath by assumption. reflexivity.
  - intros d Hd. apply measurement_dir_returns in Hd. rewrite Hd.
    apply Hpath, Hname.
Qed.

(** When the directory does not exist and [os.mkdir] raises, the
    fixture raises the same exception and gives no directory. *)
Lemma measurement_dir_passes_on_the_failure_of_mkdir ENV_DATA tmp_path st
    e st' :
  os_path_exists st (measurement_dir_path ENV_DATA tmp_path) = false ->
  os_mkdir (measurement_dir_path ENV_DATA tmp_path) st = (Raise e, st') ->
  measurement_dir os_path_exists os_mkdir ENV_DATA tmp_path st = (Raise e, st').
Proof.
  intros Hmissing Hmk. rewrite measurement_dir_unfold. cbv zeta.
  rewrite Hmissing, Hmk. reflexivity.
Qed.

(** A measurement directory that exists is returned as it is: the
    store is not changed and [os.mkdir] is not consulted, whatever it
    would do. *)
Lemma measurement_dir_leaves_an_existing_directory ENV_DATA tmp_path st :
  os_path_exists st (measurement_dir_path ENV_DATA tmp_path) = true ->
  forall os_mkdir' : string -> store -> outcome unit * store,
    measurement_dir os_path_exists os_mkdir' ENV_DATA tmp_path st
    = (Ok (measurement_dir_path ENV_DATA tmp_path), st).
Proof.
  intros Hex os_mkdir'.
  unfold measurement_dir. fold (measurement_dir_path ENV_DATA tmp_path).
  cbv zeta. rewrite Hex. reflexivity.
Qed.

(** X21: once the fixture has returned a directory it returns the same
    one again without changing anything, if a directory that [os.mkdir]
    has made exists afterwards. *)
Theorem measurement_dir_is_idempotent ENV_DATA tmp_path st d st' :
  (forall p s s', os_mkdir p s = (Ok tt, s') -> os_path_exists s' p = true) ->
  measurement_dir os_path_exists os_mkdir ENV_DATA tmp_path st = (Ok d, st') ->
  os_path_exists st' d = true
  /\ measurement_dir os_path_exists os_mkdir ENV_DATA tmp_path st'
     = (Ok d, st').
Proof.
  intros Hlaw Hrun.
  assert (Hd : d = measurement_dir_path ENV_DATA tmp_path).
  { apply (measurement_dir_returns ENV_DATA tmp_path st). rewrite Hrun.
    reflexivity. }
  assert (Hex : os_path_exists st' d = true).
  { rewrite measurement_dir_unfold in Hrun. cbv zeta in Hrun.
    rewrite <- Hd in Hrun.
    destruct (os_path_exists st d) eqn:E.
    - injection Hrun as <-. exact E.
    - destruct (os_mkdir d st) as [[[] | e] st''] eqn:Hmk; [ | discriminate].
      injection Hrun as <-. apply (Hlaw _ _ _ Hmk). }
  split; [exact Hex | ].
  rewrite measurement_dir_unfold. cbv zeta. rewrite <- Hd, Hex. reflexivity.
Qed.

End MeasurementDirFacts.

(** ** The further statements at concrete inputs *)

Lemma watcher_keeps_list_free_of_duplicates_witness :
  NoDup [Sample.mgr_firing]
  /\ NoDup (snd (fst (prometheus_log value_eqb Sample.failing_answers
                        [Sample.mgr_firing] 0))).
Proof.
  split; [apply NoDup_singleton | ].
  apply watcher_keeps_list_free_of_duplicates, NoDup_singleton.
Defined.

Lemma watcher_ends_at_first_failure_witness :
  Forall (fun r => ok r = true) More.two_answers
  /\ ok More.failed_answer = false
  /\ prometheus_log value_eqb
       (More.two_answers ++ More.failed_answer :: More.two_answers) [] 0
     = (Died (AssertionError ("Request " +:+ Sample.alerts_url +:+ " failed")),
        snd (fst (prometheus_log value_eqb More.two_answers [] 0)), 3%nat).
Proof.
  assert (Hall : Forall (fun r => ok r = true) More.two_answers)
    by (repeat constructor).
  split; [exact Hall | ]. split; [reflexivity | ].
  exact (watcher_ends_at_first_failure More.two_answers More.two_answers
           More.failed_answer [] 0 Hall eq_refl).
Defined.

Lemma watcher_returns_when_all_answers_succeed_witness :
  Forall (fun r => ok r = true) More.two_answers
  /\ fst (fst (prometheus_log value_eqb More.two_answers [] 0)) = Returned
  /\ snd (prometheus_log value_eqb More.two_answers [] 0) = 2%nat.
Proof.
  assert (Hall : Forall (fun r => ok r = true) More.two_answers)
    by (repeat constructor).
  split; [exact Hall | ].
  exact (watcher_returns_when_all_answers_succeed More.two_answers [] 0 Hall).
Defined.

Lemma repeated_answer_adds_nothing_witness :
  let r := Response true Sample.alerts_url
             [Sample.mgr_pending; Sample.mgr_firing] in
  ok r = true
  /\ snd (fst (prometheus_log value_eqb [r; r] [] 0))
     = snd (fst (prometheus_log value_eqb [r] [] 0)).
Proof.
  cbv zeta. split; [reflexivity | ].
  exact (repeated_answer_adds_nothing
           (Response true Sample.alerts_url
              [Sample.mgr_pending; Sample.mgr_firing]) [] [] 0 eq_refl).
Defined.

Lemma failed_operation_leaves_watcher_running_witness :
  let w := Sample.fresh [] in
  let w1 := World ∅ 107 [] [ThreadStarted] 0 in
  cached w "result.json" = false
  /\ More.failing (started Sample.quiet w)
     = (Raise (CommandFailed "oc scale"), w1)
  /\ measure_operation (H := Codec.json) Sample.quiet More.failing
       "result.json" None VNone false w
     = (Raise (CommandFailed "oc scale"), w1).
Proof.
  cbv zeta. split; [reflexivity | ]. split; [reflexivity | ].
  exact (proj1 (failed_operation_leaves_watcher_running (H := Codec.json)
                  Sample.quiet More.failing "result.json" None VNone false
                  (Sample.fresh []) _ _ eq_refl eq_refl)).
Defined.

Lemma saved_record_is_replayed_witness :
  let w := Sample.fresh [] in
  let ran := measure_operation (H := Codec.json) Sample.failing_api
               Sample.quick "result.json" (Some 1) VNone false w in
  let r := More.returned (fst ran) in
  cached w "result.json" = false
  /\ ran = (Ok r, snd ran)
  /\ cached (snd ran) "result.json" = true
  /\ json_load (Json := Codec.json) (fst (json_dump (Json := Codec.json) r))
     = Some r
  /\ measure_operation (H := Codec.json) Sample.quiet Sample.opaque
       "result.json" None VNone true (snd ran) = (Ok r, snd ran).
Proof.
  cbv zeta.
  set (ran := measure_operation (H := Codec.json) Sample.failing_api
                Sample.quick "result.json" (Some 1) VNone false
                (Sample.fresh [])).
  assert (Hran : ran = (Ok (More.returned (fst ran)), snd ran))
    by (vm_compute; reflexivity).
  assert (Hcached : cached (snd ran) "result.json" = true)
    by (vm_compute; reflexivity).
  assert (Hround : json_load (Json := Codec.json)
                     (fst (json_dump (Json := Codec.json)
                             (More.returned (fst ran))))
                   = Some (More.returned (fst ran)))
    by (vm_compute; reflexivity).
  split; [reflexivity | ]. split; [exact Hran | ]. split; [exact Hcached | ].
  split; [exact Hround | ].
  exact (saved_record_is_replayed (H := Codec.json) Sample.failing_api
           Sample.quick "result.json" (Some 1) VNone false (Sample.fresh [])
           _ _ eq_refl Hran Hcached Hround
           Sample.quiet Sample.opaque None VNone true).
Defined.

Lemma unreadable_result_file_is_never_reused_witness :
  let old := File false true Sample.old_text in
  let w := Sample.with_file "result.json" old [] in
  let w1 := World {[ "result.json" := old ]} 107 [] [ThreadStarted] 0 in
  cached w "result.json" = false
  /\ Sample.quick (started Sample.quiet w) = (Ok (VStr "done"), w1)
  /\ fs w1 !! "result.json" = Some old
  /\ readable old = false
  /\ cached (snd (measure_operation (H := Codec.json) Sample.quiet
                    Sample.quick "result.json" None VNone false w))
       "result.json" = false.
Proof.
  cbv zeta.
  set (old := File false true Sample.old_text).
  set (w := Sample.with_file "result.json" old []).
  assert (Hmiss : cached w "result.json" = false) by (vm_compute; reflexivity).
  assert (Hop : Sample.quick (started Sample.quiet w)
                = (Ok (VStr "done"),
                   World {[ "result.json" := old ]} 107 [] [ThreadStarted] 0))
    by reflexivity.
  assert (Hf1 : fs (World {[ "result.json" := old ]} 107 [] [ThreadStarted] 0)
                !! "result.json" = Some old) by (vm_compute; reflexivity).
  split; [exact Hmiss | ]. split; [exact Hop | ]. split; [exact Hf1 | ].
  split; [reflexivity | ].
  exact (unreadable_result_file_is_never_reused (H := Codec.json)
           Sample.quiet Sample.quick "result.json" None VNone false w _ _ old
           Hmiss Hop Hf1 eq_refl).
Defined.



Lemma osd_stop_scenario_witness :
  let w := Sample.fresh Sample.mgr_cluster in
  let ran := measure_operation (H := Codec.json) Sample.quiet
               (stop_osd Sample.quiet "rook-ceph-osd-0") More.osd_file None
               VNone false w in
  let r := More.returned (fst ran) in
  listed OSD_APP_LABEL w = [] ++ ["rook-ceph-osd-0"]
  /\ cached w More.osd_file = false
  /\ ran = (Ok r, snd ran)
  /\ measure_stop_ceph_osd (H := Codec.json) Sample.quiet Sample.dir w
     = (Ok r, executed (Scale 1 "rook-ceph-osd-0") (snd ran))
  /\ commands (trace (executed (Scale 1 "rook-ceph-osd-0") (snd ran)))
     = commands (trace w)
       ++ [Scale 0 "rook-ceph-osd-0"; Scale 1 "rook-ceph-osd-0"].
Proof.
  cbv zeta.
  set (w := Sample.fresh Sample.mgr_cluster).
  set (ran := measure_operation (H := Codec.json) Sample.quiet
                (stop_osd Sample.quiet "rook-ceph-osd-0") More.osd_file None
                VNone false w).
  assert (Hlisted : listed OSD_APP_LABEL w = [] ++ ["rook-ceph-osd-0"])
    by (vm_compute; reflexivity).
  assert (Hmiss : cached w (os_path_join Sample.dir "measure_stop_ceph_osd.json")
                  = false) by (vm_compute; reflexivity).
  assert (Hran : measure_operation (H := Codec.json) Sample.quiet
                   (stop_osd Sample.quiet "rook-ceph-osd-0")
                   (os_path_join Sample.dir "measure_stop_ceph_osd.json")
                   None VNone false w
                 = (Ok (More.returned (fst ran)), snd ran))
    by (vm_compute; reflexivity).
  destruct (osd_stop_scenario (H := Codec.json) Sample.quiet Sample.dir w []
              "rook-ceph-osd-0" _ _ Hlisted Hmiss Hran)
    as (Hfix & Hcmd & _).
  split; [exact Hlisted | ]. split; [exact Hmiss | ]. split; [exact Hran | ].
  split; [exact Hfix | exact Hcmd].
Defined.

Lemma mgr_stop_scenario_witness :
  let w := Sample.fresh Sample.mgr_cluster in
  let ran := measure_operation (H := Codec.json) Sample.quiet
               (stop_mgr Sample.quiet "rook-ceph-mgr-a") Sample.mgr_file None
               VNone false w in
  let r := More.returned (fst ran) in
  listed MGR_APP_LABEL w = ["rook-ceph-mgr-a"]
  /\ cached w Sample.mgr_file = false
  /\ ran = (Ok r, snd ran)
  /\ measure_stop_ceph_mgr (H := Codec.json) Sample.quiet Sample.dir w
     = (Ok r, executed (Scale 1 "rook-ceph-mgr-a") (snd ran))
  /\ commands (trace (executed (Scale 1 "rook-ceph-mgr-a") (snd ran)))
     = commands (trace w)
       ++ [Scale 0 "rook-ceph-mgr-a"; Scale 1 "rook-ceph-mgr-a"].
Proof.
  cbv zeta.
  set (w := Sample.fresh Sample.mgr_cluster).
  set (ran := measure_operation (H := Codec.json) Sample.quiet
                (stop_mgr Sample.quiet "rook-ceph-mgr-a") Sample.mgr_file None
                VNone false w).
  assert (Hlisted : listed MGR_APP_LABEL w = ["rook-ceph-mgr-a"])
    by (vm_compute; reflexivity).
  assert (Hmiss : cached w (os_path_join Sample.dir "measure_stop_ceph_mgr.json")
                  = false) by (vm_compute; reflexivity).
  assert (Hran : measure_operation (H := Codec.json) Sample.quiet
                   (stop_mgr Sample.quiet "rook-ceph-mgr-a")
                   (os_path_join Sample.dir "measure_stop_ceph_mgr.json")
                   None VNone false w
                 = (Ok (More.returned (fst ran)), snd ran))
    by (vm_compute; reflexivity).
  destruct (mgr_stop_scenario (H := Codec.json) Sample.quiet Sample.dir w
              "rook-ceph-mgr-a" [] _ _ Hlisted Hmiss Hran)
    as (Hfix & Hcmd & _).
  split; [exact Hlisted | ]. split; [exact Hmiss | ]. split; [exact Hran | ].
  split; [exact Hfix | exact Hcmd].
Defined.

Lemma mgr_and_osd_fixtures_need_a_deployment_witness :
  let w := Sample.fresh More.two_mons in
  listed MGR_APP_LABEL w = []
  /\ listed OSD_APP_LABEL w = []
  /\ measure_stop_ceph_mgr (H := Codec.json) Sample.quiet Sample.dir w
     = (Raise IndexError, w)
  /\ measure_stop_ceph_osd (H := Codec.json) Sample.quiet Sample.dir w
     = (Raise IndexError, w).
Proof.
  cbv zeta.
  destruct (mgr_and_osd_fixtures_need_a_deployment (H := Codec.json)
              Sample.quiet Sample.dir (Sample.fresh More.two_mons))
    as [Hmgr Hosd].
  split; [reflexivity | ]. split; [reflexivity | ].
  split; [apply Hmgr | apply Hosd]; reflexivity.
Defined.

Lemma mon_stop_with_two_or_fewer_stops_nothing_witness :
  let w := Sample.fresh More.two_mons in
  let ran := measure_operation (H := Codec.json) Sample.quiet
               (stop_mon Sample.quiet []) Sample.mon_file None VNone false w in
  let r := More.returned (fst ran) in
  (List.length (listed MON_APP_LABEL w) <= 2)%nat
  /\ cached w Sample.mon_file = false
  /\ ran = (Ok r, snd ran)
  /\ measure_stop_ceph_mon (H := Codec.json) Sample.quiet Sample.dir w
     = (Ok r, snd ran)
  /\ commands (trace (snd ran)) = commands (trace w).
Proof.
  cbv zeta.
  set (w := Sample.fresh More.two_mons).
  set (ran := measure_operation (H := Codec.json) Sample.quiet
                (stop_mon Sample.quiet []) Sample.mon_file None VNone false w).
  assert (Hn : (List.length (listed MON_APP_LABEL w) <= 2)%nat)
    by (vm_compute; lia).
  assert (Hmiss : cached w (os_path_join Sample.dir "measure_stop_ceph_mon.json")
                  = false) by (vm_compute; reflexivity).
  assert (Hran : measure_operation (H := Codec.json) Sample.quiet
                   (stop_mon Sample.quiet [])
                   (os_path_join Sample.dir "measure_stop_ceph_mon.json")
                   None VNone false w
                 = (Ok (More.returned (fst ran)), snd ran))
    by (vm_compute; reflexivity).
  destruct (mon_stop_with_two_or_fewer_stops_nothing (H := Codec.json)
              Sample.quiet Sample.dir w _ _ Hn Hmiss Hran)
    as (Hfix & Hcmd & _).
  split; [exact Hn | ]. split; [exact Hmiss | ]. split; [exact Hran | ].
  split; [exact Hfix | exact Hcmd].
Defined.

Lemma mon_stop_replay_always_fails_witness :
  let f := File true true Sample.old_text in
  let w := Sample.with_file Sample.mon_file f Sample.mon_cluster in
  let stopped := ["rook-ceph-mon-c"; "rook-ceph-mon-d"] in
  fs w !! Sample.mon_file = Some f
  /\ readable f = true
  /\ json_load (Json := Codec.json) (content f) = Some Sample.old_record
  /\ (3 <= List.length (listed MON_APP_LABEL w))%nat
  /\ fst (measure_stop_ceph_mon (H := Codec.json) Sample.quiet Sample.dir w)
     = Raise (AssertionError
                ("Downscaled monitors " +:+ repr_list stopped
                 +:+ " were not replaced")).
Proof.
  cbv zeta.
  set (f := File true true Sample.old_text).
  set (w := Sample.with_file Sample.mon_file f Sample.mon_cluster).
  assert (Hf : fs w !! os_path_join Sample.dir "measure_stop_ceph_mon.json"
               = Some f) by (vm_compute; reflexivity).
  assert (Hload : json_load (Json := Codec.json) (content f)
                  = Some Sample.old_record) by (vm_compute; reflexivity).
  assert (Hn : (3 <= List.length (listed MON_APP_LABEL w))%nat)
    by (vm_compute; lia).
  destruct (mon_stop_replay_always_fails (H := Codec.json) Sample.quiet
              Sample.dir w f Sample.old_record Hf eq_refl Hload Hn)
    as (Hfix & _).
  split; [exact Hf | ]. split; [reflexivity | ]. split; [exact Hload | ].
  split; [exact Hn | ]. rewrite Hfix. reflexivity.
Defined.

Lemma mgr_and_osd_replay_only_scale_up_witness :
  let f := File true true Sample.old_text in
  let w := Sample.with_file Sample.mgr_file f Sample.mgr_cluster in
  readable f = true
  /\ json_load (Json := Codec.json) (content f) = Some Sample.old_record
  /\ fs w !! Sample.mgr_file = Some f
  /\ listed MGR_APP_LABEL w = ["rook-ceph-mgr-a"]
  /\ measure_stop_ceph_mgr (H := Codec.json) Sample.quiet Sample.dir w
     = (Ok Sample.old_record, executed (Scale 1 "rook-ceph-mgr-a") w).
Proof.
  cbv zeta.
  set (f := File true true Sample.old_text).
  set (w := Sample.with_file Sample.mgr_file f Sample.mgr_cluster).
  assert (Hload : json_load (Json := Codec.json) (content f)
                  = Some Sample.old_record) by (vm_compute; reflexivity).
  assert (Hf : fs w !! os_path_join Sample.dir "measure_stop_ceph_mgr.json"
               = Some f) by (vm_compute; reflexivity).
  assert (Hlisted : listed MGR_APP_LABEL w = ["rook-ceph-mgr-a"])
    by (vm_compute; reflexivity).
  split; [reflexivity | ]. split; [exact Hload | ]. split; [exact Hf | ].
  split; [exact Hlisted | ].
  exact (proj1 (mgr_and_osd_replay_only_scale_up (H := Codec.json)
                  Sample.quiet Sample.dir w f Sample.old_record eq_refl Hload)
           "rook-ceph-mgr-a" [] Hf Hlisted).
Defined.

Lemma TOP_DIR_is_the_directory_of_the_package_witness :
  (ends_with_slash "/home/ci/ocs-ci" = false
   \/ all_slashes "/home/ci/ocs-ci" = true)
  /\ TOP_DIR (os_path_join_all "/home/ci/ocs-ci"
                ["ocs_ci"; "ocs"; "constants.py"])
     = "/home/ci/ocs-ci".
Proof.
  split; [left; reflexivity | ].
  exact (proj1 (TOP_DIR_is_the_directory_of_the_package "/home/ci/ocs-ci"
                  (or_introl eq_refl))).
Defined.

Lemma measurement_dir_prefers_the_configuration_witness :
  More.configured !! "measurement_dir" = Some "/tmp/results"
  /\ "/tmp/results" <> EmptyString
  /\ measurement_dir SampleOs.exists_in SampleOs.mkdir More.configured
       "/tmp/pytest-of-ci/pytest-0/test_mgr0" SampleOs.session
     = measurement_dir SampleOs.exists_in SampleOs.mkdir More.configured
         "/var/tmp/other" SampleOs.session.
Proof.
  assert (Hconf : More.configured !! "measurement_dir" = Some "/tmp/results")
    by (vm_compute; reflexivity).
  assert (Hne : "/tmp/results" <> EmptyString) by discriminate.
  split; [exact Hconf | ]. split; [exact Hne | ].
  exact (proj1 (measurement_dir_prefers_the_configuration SampleOs.exists_in
                  SampleOs.mkdir More.configured "/tmp/results"
                  "/tmp/pytest-of-ci/pytest-0/test_mgr0" "/var/tmp/other"
                  SampleOs.session Hconf Hne)).
Defined.

Lemma measurement_dir_is_shared_by_the_session_witness :
  let base := "/tmp/pytest-of-ci/pytest-0" in
  ((∅ : gmap string string) !! "measurement_dir" = None
   \/ (∅ : gmap string string) !! "measurement_dir" = Some EmptyString)
  /\ (ends_with_slash base = false \/ all_slashes base = true)
  /\ no_slash "test_mgr0" = true
  /\ no_slash "test_mon0" = true
  /\ measurement_dir SampleOs.exists_in SampleOs.mkdir ∅
       (os_path_join base "test_mgr0") SampleOs.session
     = measurement_dir SampleOs.exists_in SampleOs.mkdir ∅
         (os_path_join base "test_mon0") SampleOs.session.
Proof.
  cbv zeta.
  split; [left; reflexivity | ]. split; [left; reflexivity | ].
  split; [reflexivity | ]. split; [reflexivity | ].
  exact (proj1 (measurement_dir_is_shared_by_the_session SampleOs.exists_in
                  SampleOs.mkdir ∅ "/tmp/pytest-of-ci/pytest-0" "test_mgr0"
                  "test_mon0" SampleOs.session (or_introl eq_refl)
                  (or_introl eq_refl) eq_refl eq_refl)).
Defined.

Lemma sample_mkdir_creates (p : string) (s s' : gset string) :
  SampleOs.mkdir p s = (Ok tt, s') -> SampleOs.exists_in s' p = true.
Proof.
  unfold SampleOs.mkdir, SampleOs.exists_in.
  destruct (bool_decide (os_path_dirname p ∈ s)); [ | discriminate].
  intros [= <-]. apply bool_decide_eq_true. set_solver.
Qed.

Lemma measurement_dir_is_idempotent_witness :
  let ran := measurement_dir SampleOs.exists_in SampleOs.mkdir ∅
               "/tmp/pytest-of-ci/pytest-0/test_mgr0" SampleOs.session in
  let d := "/tmp/pytest-of-ci/pytest-0/measurement_results" in
  (forall p s s', SampleOs.mkdir p s = (Ok tt, s') ->
                  SampleOs.exists_in s' p = true)
  /\ ran = (Ok d, snd ran)
  /\ SampleOs.exists_in (snd ran) d = true
  /\ measurement_dir SampleOs.exists_in SampleOs.mkdir ∅
       "/tmp/pytest-of-ci/pytest-0/test_mgr0" (snd ran) = (Ok d, snd ran).
Proof.
  cbv zeta.
  set (ran := measurement_dir SampleOs.exists_in SampleOs.mkdir ∅
                "/tmp/pytest-of-ci/pytest-0/test_mgr0" SampleOs.session).
  assert (Hran : ran = (Ok "/tmp/pytest-of-ci/pytest-0/measurement_results",
                        snd ran)) by (vm_compute; reflexivity).
  split; [exact sample_mkdir_creates | ]. split; [exact Hran | ].
  exact (measurement_dir_is_idempotent SampleOs.exists_in SampleOs.mkdir ∅
           "/tmp/pytest-of-ci/pytest-0/test_mgr0" SampleOs.session _ _
           sample_mkdir_creates Hran).
Defined.
